(** * thesis-rag: the evaluation suite factory and the LaTeX report generator

    A shallow embedding of [deepeval_metrics.py] ([get_metrics]) and of
    [test.py] ([generate_full_latex_table]), with the properties the
    specification states about them.

    Python floats are IEEE binary64 values: they are embedded as the
    Standard Library's [spec_float] at precision 53 and maximal exponent
    1024.  Python dicts are [gmap]s; dicts whose iteration order is used
    are association lists.  Text is a byte string (UTF-8). *)

From Stdlib Require Import ZArith String Ascii List Lia Bool.
From Stdlib Require Import Floats.SpecFloat.
From Stdlib Require Import Decimal DecimalString.
From Stdlib Require Import Sorting.Sorted Sorting.Permutation.
From stdpp Require Import base gmap strings list.
Import ListNotations.


(* ===================================================================== *)
(** * Python floats *)
(* ===================================================================== *)

Module PyFloat.

Definition float : Type := spec_float.

Definition prec : Z := 53.
Definition emax : Z := 1024.

Definition add : float -> float -> float := SFadd prec emax.
Definition div : float -> float -> float := SFdiv prec emax.
Definition of_Z (z : Z) : float := binary_normalize prec emax z 0 false.

  (** The float a decimal literal [n / 10^k] denotes: the binary64 value
      nearest to it (both operands are exact, and division rounds
      correctly). *)
Definition literal (n : Z) (k : nat) : float :=
    div (of_Z n) (of_Z (10 ^ Z.of_nat k)).

Definition isnan (x : float) : bool :=
    match x with S754_nan => true | _ => false end.

Definition is_finite (x : float) : bool :=
    match x with S754_zero _ | S754_finite _ _ _ => true | _ => false end.

  (** [0 <= x <= 1], false on NaN. *)
Definition in_unit_interval (x : float) : bool :=
    SFleb (S754_zero false) x && SFleb x (of_Z 1).

  (** ** [format(x, '.<d>f')]

      CPython prints the exact binary value rounded to [d] decimals, ties
      to even, never in exponent form; [nan] and [inf] print as words. *)

Definition round_half_even (num den : Z) : Z :=
    let q := (num / den)%Z in
    let r := (num mod den)%Z in
    match (2 * r ?= den)%Z with
    | Lt => q
    | Gt => (q + 1)%Z
    | Eq => if Z.even q then q else (q + 1)%Z
    end.

  (** The integer nearest to [m * 2^e * 10^d]. *)
Definition scaled (d : nat) (m : positive) (e : Z) : Z :=
    if (0 <=? e)%Z
    then (Zpos m * 2 ^ e * 10 ^ Z.of_nat d)%Z
    else round_half_even (Zpos m * 10 ^ Z.of_nat d) (2 ^ (- e)).

Definition digits (n : Z) : string :=
    NilZero.string_of_uint (N.to_uint (Z.to_N n)).

Definition digit_char (n : Z) : ascii := ascii_of_N (48 + Z.to_N n).

  (** The last [d] decimal digits of [n], leading zeros included. *)
Fixpoint fixed_width (d : nat) (n : Z) : string :=
    match d with
    | O => EmptyString
    | S k => fixed_width k (n / 10) +:+ String (digit_char (n mod 10)) EmptyString
    end.

Definition sign (s : bool) : string := if s then "-" else "".

  (** [n] units of [10^-d], written with [d] decimals. *)
Definition fixed (d : nat) (n : Z) : string :=
    match d with
    | O => digits n
    | S _ => digits (n / 10 ^ Z.of_nat d) +:+ "." +:+ fixed_width d n
    end.

Definition format_f (d : nat) (x : float) : string :=
    match x with
    | S754_nan => "nan"
    | S754_infinity s => sign s +:+ "inf"
    | S754_zero s => sign s +:+ fixed d 0
    | S754_finite s m e => sign s +:+ fixed d (scaled d m e)
    end.

  (** ** Recognising fixed-point notation with exactly [d] decimals:
      an optional minus sign, one or more digits, a point, [d] digits. *)

Definition is_digit (c : ascii) : bool :=
    let n := N_of_ascii c in (48 <=? n)%N && (n <=? 57)%N.

Fixpoint all_digits (s : string) : bool :=
    match s with
    | EmptyString => true
    | String c r => is_digit c && all_digits r
    end.

Fixpoint split_at_point (s : string) : option (string * string) :=
    match s with
    | EmptyString => None
    | String c r =>
        if Ascii.eqb c "." then Some (EmptyString, r)
        else match split_at_point r with
             | Some (a, b) => Some (String c a, b)
             | None => None
             end
    end.

Definition strip_sign (s : string) : string :=
    match s with
    | String c r => if Ascii.eqb c "-" then r else s
    | EmptyString => s
    end.

Definition is_fixed_point (d : nat) (s : string) : bool :=
    match split_at_point (strip_sign s) with
    | Some (ip, fp) =>
        negb (String.eqb ip "") && all_digits ip && all_digits fp
        && Nat.eqb (String.length fp) d
    | None => false
    end.

  (** ** Constants of the sources *)

Definition f0_9 : float := Eval vm_compute in literal 9 1.
Definition f0_8 : float := Eval vm_compute in literal 8 1.
Definition f0_7 : float := Eval vm_compute in literal 7 1.

End PyFloat.

(** A Python call returns a value or raises. *)
Inductive exn : Type :=
| AttributeError
| InvalidThreshold
| SourceUnavailable
| OtherException (what : string).

Inductive outcome (A : Type) : Type :=
| Returns (a : A)
| Raises (e : exn).
Arguments Returns {A} a.
Arguments Raises {A} e.

(** One statement after another: the first that raises ends the call. *)
Definition bind {A B : Type} (o : outcome A) (k : A -> outcome B)
  : outcome B :=
  match o with
  | Returns a => k a
  | Raises e => Raises e
  end.

Notation "'let!' x ':=' o 'in' k" := (bind o (fun x => k))
  (at level 10, x name, o at level 100, k at level 200).

(* ===================================================================== *)
(** * deepeval_metrics.py *)
(* ===================================================================== *)

Module DeepevalMetrics.
Import PyFloat.

Inductive LLMTestCaseParams : Type :=
  | INPUT | ACTUAL_OUTPUT | EXPECTED_OUTPUT | CONTEXT.

Section Suite.
    (** The grading engine class of the deepeval library. *)
Variable DeepEvalBaseLLM : Type.

    (** [Union[str, DeepEvalBaseLLM]]; the parameter is [Optional] of it. *)
Inductive model_ref : Type :=
    | ModelName (name : string)
    | ModelObject (llm : DeepEvalBaseLLM).

    (** [thresholds: Union[float, Dict[str, float]]]. *)
Inductive thresholds_t : Type :=
    | ThFloat (s : float)
    | ThDict (d : gmap string float).

    (** The metric objects of the deepeval library, as the keyword
        arguments they are built from: building one is configuration only. *)
Inductive BaseMetric : Type :=
    | GEval (name : string) (threshold : float) (criteria : string)
            (evaluation_steps : list string)
            (evaluation_params : list LLMTestCaseParams)
            (model : option model_ref) (_include_g_eval_suffix : bool)
    | AnswerRelevancyMetric (threshold : float) (model : option model_ref)
                            (include_reason : bool)
    | FaithfulnessMetric (threshold : float) (model : option model_ref)
                         (include_reason : bool)
    | HallucinationMetric (threshold : float) (model : option model_ref)
                          (include_reason : bool).

    (** [thresholds if isinstance(thresholds, float)
         else thresholds.get(key, dflt)] *)
Definition threshold_for (thresholds : thresholds_t) (key : string)
               (dflt : float) : float :=
      match thresholds with
      | ThFloat s => s
      | ThDict d => default dflt (d !! key)
      end.

Definition correctness_steps : list string :=
      [ "Check whether the actual output is either empty or explicitly states that the question cannot be answered with the given context. If the expected output also states that the question cannot be answered, assign the maximum score and skip further steps.";
        "If the expected output provides an answer, verify whether the facts in 'actual output' contradict any facts in 'expected output'.";
        "Heavily penalize omission of key details present in the expected output.";
        "Vague language or contradicting OPINIONS are acceptable and should not be penalized.";
        "If the expected output states that the question cannot be answered with the given context but the actual output attempts to provide an answer, apply a heavy penalty." ].

Definition specific_info_criteria : string :=
      "Evaluate whether the actual output appropriately responds to the input question given the context, " +:+
      "without introducing specific information (e.g., names, places, numbers) that is not explicitly provided in the context. " +:+
      "Use the expected output to determine whether the model should answer the question or state that it cannot answer.".

Definition specific_info_steps : list string :=
      [ "Carefully read the context and identify all specific information (such as names, places, numbers) explicitly mentioned.";
        "Review the expected output to understand whether the question is answerable given the context.";
        "Analyze the actual output to see if it includes specific information not present in the context.";
        "If the expected output indicates that the question cannot be answered:";
        "    - If the actual output correctly states that it cannot answer the question with the given context or provides an appropriate non-informative response, assign the highest possible score.";
        "    - If the actual output attempts to answer the question by introducing information not present in the context, assign the lowest possible score.";
        "If the expected output indicates that the question can be answered:";
        "    - If the actual output answers the question using only the information present in the context without adding any inferred or external information, assign a high score based on the answer's accuracy.";
        "    - If the actual output includes any specific information (names, places, numbers) that is not present in the context, assign a lower score accordingly.";
        "Provide a final score based on the above criteria, ensuring that the evaluation is consistent with the expected output." ].

    (** The suite [get_metrics] builds: the five checks as the body
        configures them, in the order of the list it returns. *)
Definition get_metrics (model : option model_ref)
               (thresholds : thresholds_t) (include_reason : bool)
      : list BaseMetric :=
      let correctness_metric :=
        GEval "Correctness"
              (threshold_for thresholds "Correctness" f0_9)
              "Determine whether the actual output is factually correct based on the expected output."
              correctness_steps
              [INPUT; ACTUAL_OUTPUT; EXPECTED_OUTPUT]
              model false in
      let specific_info_accuracy_metric :=
        GEval "Specific Information Accuracy"
              (threshold_for thresholds "Specific Information Accuracy" f0_9)
              specific_info_criteria
              specific_info_steps
              [INPUT; ACTUAL_OUTPUT; EXPECTED_OUTPUT; CONTEXT]
              model false in
      let answer_relevancy :=
        AnswerRelevancyMetric
          (threshold_for thresholds "Answer Relevancy" f0_9)
          model include_reason in
      let faithfulness_metric :=
        FaithfulnessMetric
          (threshold_for thresholds "Faithfulness" f0_9)
          model include_reason in
      let hallucinationMetric :=
        HallucinationMetric
          (threshold_for thresholds "Hallucination" f0_8)
          model include_reason in
      let metrics :=
        [ correctness_metric;
          specific_info_accuracy_metric;
          answer_relevancy;
          faithfulness_metric;
          hallucinationMetric ] in
      metrics.

    (** ** A call of [get_metrics]

        What a caller passes for [thresholds]: a value of the annotated
        type, or an [int] (a type checker takes an [int] where a [float]
        is asked for; [isinstance(1, float)] does not hold). *)
Inductive thresholds_arg : Type :=
    | OfType (t : thresholds_t)
    | PyInt (n : Z).

    (** The expression [thresholds if isinstance(thresholds, float)
        else thresholds.get(key, dflt)], evaluated: an [int] has no
        [get]. *)
Definition eval_threshold (thresholds : thresholds_arg) (key : string)
               (dflt : float) : outcome float :=
      match thresholds with
      | OfType t => Returns (threshold_for t key dflt)
      | PyInt _ => Raises AttributeError
      end.

    (** How the constructors of the library end on a configuration, which
        is theirs to decide: they complete, or raise. *)
Variable init : BaseMetric -> option exn.

Definition construct (c : BaseMetric) : outcome BaseMetric :=
      match init c with
      | None => Returns c
      | Some e => Raises e
      end.

    (** The body of [get_metrics], statement by statement: the arguments
        of a constructor are evaluated, then the constructor runs. *)
Definition get_metrics_call (model : option model_ref)
               (thresholds : thresholds_arg) (include_reason : bool)
      : outcome (list BaseMetric) :=
      let! t1 := eval_threshold thresholds "Correctness" f0_9 in
      let! correctness_metric :=
        construct
          (GEval "Correctness" t1
                 "Determine whether the actual output is factually correct based on the expected output."
                 correctness_steps
                 [INPUT; ACTUAL_OUTPUT; EXPECTED_OUTPUT]
                 model false) in
      let! t2 := eval_threshold thresholds "Specific Information Accuracy" f0_9 in
      let! specific_info_accuracy_metric :=
        construct
          (GEval "Specific Information Accuracy" t2
                 specific_info_criteria
                 specific_info_steps
                 [INPUT; ACTUAL_OUTPUT; EXPECTED_OUTPUT; CONTEXT]
                 model false) in
      let! t3 := eval_threshold thresholds "Answer Relevancy" f0_9 in
      let! answer_relevancy :=
        construct (AnswerRelevancyMetric t3 model include_reason) in
      let! t4 := eval_threshold thresholds "Faithfulness" f0_9 in
      let! faithfulness_metric :=
        construct (FaithfulnessMetric t4 model include_reason) in
      let! t5 := eval_threshold thresholds "Hallucination" f0_8 in
      let! hallucinationMetric :=
        construct (HallucinationMetric t5 model include_reason) in
      let metrics :=
        [ correctness_metric;
          specific_info_accuracy_metric;
          answer_relevancy;
          faithfulness_metric;
          hallucinationMetric ] in
      Returns metrics.

    (** ** Reading a check back *)

Definition metric_threshold (c : BaseMetric) : float :=
      match c with
      | GEval _ t _ _ _ _ _ => t
      | AnswerRelevancyMetric t _ _ => t
      | FaithfulnessMetric t _ _ => t
      | HallucinationMetric t _ _ => t
      end.

    (** The name of a check: the [name] a rubric-graded check is given,
        and for the three classifiers the name of the class, which is also
        the key [get_metrics] looks its threshold up under. *)
Definition metric_name (c : BaseMetric) : string :=
      match c with
      | GEval n _ _ _ _ _ _ => n
      | AnswerRelevancyMetric _ _ _ => "Answer Relevancy"
      | FaithfulnessMetric _ _ _ => "Faithfulness"
      | HallucinationMetric _ _ _ => "Hallucination"
      end.

Inductive check_kind : Type := RubricGraded | ClassifierBased.

Definition metric_kind (c : BaseMetric) : check_kind :=
      match c with
      | GEval _ _ _ _ _ _ _ => RubricGraded
      | _ => ClassifierBased
      end.

    (** The fallback the specification documents per check name. *)
Definition documented_fallback (name : string) : float :=
      if String.eqb name "Hallucination" then f0_8 else f0_9.

    (** The thresholds a policy resolves to, one per check of the suite. *)
Definition resolved_thresholds (thresholds : thresholds_t) : list float :=
      map (fun name => threshold_for thresholds name (documented_fallback name))
          [ "Correctness"; "Specific Information Accuracy";
            "Answer Relevancy"; "Faithfulness"; "Hallucination" ].

(** The sentence of the specification on thresholds outside [0,1], as it
    is worded: a policy that resolves to such a value for some check makes
    the construction fail with [InvalidThreshold]. *)
Definition fails_on_invalid_threshold (model : option model_ref)
           (thresholds : thresholds_t) (include_reason : bool) : Prop :=
  Exists (fun t => in_unit_interval t = false)
         (resolved_thresholds thresholds) ->
  get_metrics_call model (OfType thresholds) include_reason
  = Raises InvalidThreshold.

End Suite.

Arguments ModelName {DeepEvalBaseLLM} name.
Arguments ModelObject {DeepEvalBaseLLM} llm.
Arguments get_metrics {DeepEvalBaseLLM} model thresholds include_reason.
Arguments construct {DeepEvalBaseLLM} init c.
Arguments get_metrics_call {DeepEvalBaseLLM} init model thresholds
  include_reason.
Arguments metric_threshold {DeepEvalBaseLLM} c.
Arguments metric_name {DeepEvalBaseLLM} c.
Arguments metric_kind {DeepEvalBaseLLM} c.
Arguments fails_on_invalid_threshold {DeepEvalBaseLLM} init model thresholds
  include_reason.

(** A threshold of one and a half, and a backend given by name. *)
Definition f1_5 : float := Eval vm_compute in literal 15 1.
Definition no_llm : Type := Empty_set.

(** Constructors that complete on every configuration. *)
Definition constructors_complete {DeepEvalBaseLLM : Type}
  : BaseMetric DeepEvalBaseLLM -> option exn :=
  fun _ => None.

(** A call with keyword arguments, each of which may be left out: the
    defaults of the signature are [model=None], [thresholds=0.7] and
    [include_reason=False]. *)
Definition get_metrics_kw {DeepEvalBaseLLM : Type}
           (model : option (model_ref DeepEvalBaseLLM))
           (thresholds : option thresholds_t)
           (include_reason : option bool)
  : list (BaseMetric DeepEvalBaseLLM) :=
  get_metrics model (default (ThFloat f0_7) thresholds)
              (default false include_reason).

(** The five names [get_metrics] looks thresholds up under. *)
Definition check_names : list string :=
  [ "Correctness"; "Specific Information Accuracy"; "Answer Relevancy";
    "Faithfulness"; "Hallucination" ].

(** A policy all of whose values lie in [0,1]. *)
Definition policy_in_range (thresholds : thresholds_t) : Prop :=
  match thresholds with
  | ThFloat s => in_unit_interval s = true
  | ThDict d => map_Forall (fun _ v => in_unit_interval v = true) d
  end.

End DeepevalMetrics.

(* ===================================================================== *)
(** * test.py *)
(* ===================================================================== *)

Module LatexTable.
Import PyFloat.

(** ** The frame read from the CSV file *)

(** A cell of a text column: a string, or missing (pandas' NaN). *)
Inductive obj : Type :=
| Str (s : string)
| NaN.

(** A row as [read_csv] delivers it: the text columns [Configuration] and
    [Prompt], the float column [Temperature] (NaN when the cell is empty)
    and the float columns of the metrics, read by column name. *)
Record CsvRow : Type := mkCsvRow {
  Configuration : obj;
  csv_Prompt : obj;
  csv_Temperature : float;
  csv_num : string -> float
}.

(** A row of the working frame, after [Configuration] is renamed. *)
Record Row : Type := mkRow {
  Model : obj;
  Prompt : obj;
  Temperature : float;
  num : string -> float
}.

(** What [pd.read_csv(csv_path)] does: it returns the frame, or raises
    [FileNotFoundError], or raises something else (with its message). *)
Inductive read_result : Type :=
| ReadOk (df : list CsvRow)
| FileNotFoundError
| ReadException (e : string).

(** ** Strings *)

Definition nl : string := String (ascii_of_nat 10) EmptyString.

(** [sep.join(l)] *)
Fixpoint join (sep : string) (l : list string) : string :=
  match l with
  | [] => EmptyString
  | [x] => x
  | x :: t => x +:+ sep +:+ join sep t
  end.

(** [s * n] *)
Fixpoint str_mul (s : string) (n : nat) : string :=
  match n with O => EmptyString | S k => s +:+ str_mul s k end.

(** [str(n)] of a natural number *)
Definition str_int (n : nat) : string := digits (Z.of_nat n).

(** [s.replace('_', r'\_')] *)
Fixpoint replace_underscore (s : string) : string :=
  match s with
  | EmptyString => EmptyString
  | String c r =>
      if Ascii.eqb c "_" then String "\" (String "_" (replace_underscore r))
      else String c (replace_underscore r)
  end.

(** The inverse reading: a backslash followed by an underscore stands for
    the underscore. *)
Fixpoint unescape_underscore (s : string) : string :=
  match s with
  | EmptyString => EmptyString
  | String c r =>
      match r with
      | String c' r' =>
          if Ascii.eqb c "\" && Ascii.eqb c' "_"
          then String "_" (unescape_underscore r')
          else String c (unescape_underscore r)
      | EmptyString => String c EmptyString
      end
  end.

(** Every underscore of [s] comes right after a backslash ([prev] tells
    whether the character before [s] is one). *)
Fixpoint underscores_escaped (prev : bool) (s : string) : bool :=
  match s with
  | EmptyString => true
  | String c r =>
      if Ascii.eqb c "_" then prev && underscores_escaped false r
      else underscores_escaped (Ascii.eqb c "\") r
  end.

(** Each line followed by a newline. *)
Definition lines (l : list string) : string :=
  String.concat EmptyString (map (fun x => x +:+ nl) l).

(** [str(x)] of a text cell *)
Definition str_obj (c : obj) : string :=
  match c with Str s => s | NaN => "nan" end.

(** ** Step 0: rename, keep the recognised prompts, shorten them *)

Definition rename (r : CsvRow) : Row :=
  mkRow (Configuration r) (csv_Prompt r) (csv_Temperature r) (csv_num r).

Definition prompt_mapping : gmap string string :=
  list_to_map [ ("current_user_template.txt", "P1");
                ("previous_user_template.txt", "P2") ].

(** [cell in mapping], as [Series.isin(mapping)] tests it per row *)
Definition isin (c : obj) (mapping : gmap string string) : bool :=
  match c with
  | Str s => match mapping !! s with Some _ => true | None => false end
  | NaN => false
  end.

(** [Series.map(mapping)] per row: NaN where the mapping has no entry *)
Definition series_map (mapping : gmap string string) (c : obj) : obj :=
  match c with
  | Str s => match mapping !! s with Some v => Str v | None => NaN end
  | NaN => NaN
  end.

Definition set_Prompt (p : obj) (r : Row) : Row :=
  mkRow (Model r) p (Temperature r) (num r).

Definition normalize (df : list CsvRow) : list Row :=
  let df := map rename df in
  let df := filter (fun r => isin (Prompt r) prompt_mapping) df in
  map (fun r => set_Prompt (series_map prompt_mapping (Prompt r)) r) df.

(** ** Step 1: printable model names, and the sort *)

Definition model_name_mapping : gmap string string :=
  list_to_map
    [ ("GENAI_SHARED_VERTEXAI_GOOGLE_GEMINI_15_FLASH", "Gemini 1.5 Flash");
      ("GENAI_SHARED_VERTEXAI_GOOGLE_GEMINI_15_PRO", "Gemini 1.5 Pro");
      ("GENAI_SHARED_VERTEXAI_GOOGLE_GEMINI_2_FLASH", "Gemini 2.0 Flash");
      ("GENAI_SHARED_VERTEXAI_GOOGLE_GEMINI_2_FLASH_LITE", "Gemini 2.0 Flash Lite");
      ("GENAI_SHARED_VERTEXAI_GOOGLE_GEMINI_25_PRO", "Gemini 2.5 Pro");
      ("GENAI_SHARED_VERTEXAI_GOOGLE_GEMINI_25_FLASH", "Gemini 2.5 Flash");
      ("GENAI_SHARED_VERTEXAI_ANTHROPIC_CLAUDE_35_SONNET", "Claude 3.5 Sonnet");
      ("GENAI_SHARED_VERTEXAI_ANTHROPIC_CLAUDE_35_SONNET_V2", "Claude 3.5 Sonnet v2");
      ("GENAI_SHARED_VERTEXAI_ANTHROPIC_CLAUDE_37_SONNET", "Claude 3.7 Sonnet");
      ("GENAI_SHARED_VERTEXAI_ANTHROPIC_CLAUDE_4_SONNET", "Claude 4.0 Sonnet");
      ("GENAI_SHARED_BEDROCK_ANTHROPIC_CLAUDE_3_HAIKU", "Claude 3 Haiku");
      ("GENAI_SHARED_AZURE_OPENAI_GPT_4_OMNI", "GPT-4 Omni");
      ("GENAI_SHARED_AZURE_OPENAI_GPT_4_OMNI_2024_20_11", "GPT-4 Omni (2024-11-20)");
      ("GENAI_SHARED_AZURE_OPENAI_GPT_4_OMNI_MINI", "GPT-4 Omni Mini");
      ("GENAI_SHARED_AZURE_OPENAI_GPT_41_NANO", "GPT-4.1 Nano");
      ("GENAI_SHARED_AZURE_OPENAI_GPT_41", "GPT-4.1");
      ("GENAI_SHARED_AZURE_OPENAI_O1_MINI", "O1 Mini");
      ("GENAI_SHARED_AZURE_OPENAI_O1", "O1");
      ("GENAI_SHARED_AZURE_OPENAI_O3", "O3");
      ("GENAI_SHARED_AZURE_OPENAI_O3_MINI", "O3 Mini");
      ("GENAI_SHARED_AZURE_OPENAI_O4_MINI", "O4 Mini");
      ("GENAI_SHARED_AZURE_OPENAI_TEXT_ADA_002", "Ada-002");
      ("GENAI_SHARED_AZURE_OPENAI_TEXT_EMBEDDING_003_LARGE", "Embedding-003 Large");
      ("GENAI_SHARED_BEDROCK_AMAZON_TITAN_EMBED_TEXT_V1", "Titan Embed v1");
      ("GENAI_SHARED_VERTEXAI_GOOGLE_TEXTEMBEDDING_GECKO", "Gecko") ].

(** [a.fillna(b)] per row *)
Definition fillna (a b : obj) : obj :=
  match a with NaN => b | Str _ => a end.

(** The column [MappedModel]:
    [df['Model'].map(model_name_mapping).fillna(df['Model'])]. *)
Definition MappedModel (r : Row) : obj :=
  fillna (series_map model_name_mapping (Model r)) (Model r).

(** The order [sort_values] sorts a column by: ascending, missing values
    last (its defaults [ascending=True], [na_position='last']).  Strings
    compare as Python compares them, by code point, which on UTF-8 text is
    by byte. *)
Definition cmp_obj (a b : obj) : comparison :=
  match a, b with
  | Str x, Str y => String.compare x y
  | Str _, NaN => Lt
  | NaN, Str _ => Gt
  | NaN, NaN => Eq
  end.

Definition cmp_float (x y : float) : comparison :=
  match SFcompare x y with
  | Some c => c
  | None =>
      match isnan x, isnan y with
      | true, true => Eq
      | true, false => Gt
      | false, _ => Lt
      end
  end.

(** Finite floats of one sign are ordered by exponent, then mantissa. *)
Definition cmp_em (e1 : Z) (m1 : positive) (e2 : Z) (m2 : positive)
  : comparison :=
  match Z.compare e1 e2 with
  | Lt => Lt
  | Gt => Gt
  | Eq => Pos.compare_cont Eq m1 m2
  end.

(** The first key decides, unless it ties. *)
Definition lex (c1 c2 : comparison) : comparison :=
  match c1 with Eq => c2 | _ => c1 end.

(** The comparison on [['MappedModel', 'Prompt', 'Temperature']]. *)
Definition row_cmp (a b : Row) : comparison :=
  lex (cmp_obj (MappedModel a) (MappedModel b))
      (lex (cmp_obj (Prompt a) (Prompt b))
           (cmp_float (Temperature a) (Temperature b))).

Definition row_leb (a b : Row) : bool :=
  match row_cmp a b with Gt => false | _ => true end.

(** [sort_values] on several columns orders the rows by their keys and
    keeps rows of equal keys in their order in the frame (it sorts the
    group codes of the keys by a counting sort or a merge sort).  There is
    one such arrangement; it is computed here by insertion from the
    right, each row going in front of the rows it does not exceed. *)
Fixpoint insert_row (r : Row) (l : list Row) : list Row :=
  match l with
  | [] => [r]
  | x :: t => if row_leb r x then r :: l else x :: insert_row r t
  end.

Definition sort_values (df : list Row) : list Row :=
  fold_right insert_row [] df.

(** ** Step 2: the metrics *)

Definition metric_order : list (string * string) :=
  [ ("Answer Relevancy", "AR");
    ("Correctness", "C");
    ("Faithfulness", "F");
    ("Hallucination", "H");
    ("Specific Information Accuracy", "SIA") ].

Definition metrics : list string := map fst metric_order.
Definition abbrevs : list string := map snd metric_order.

Definition avg_cols : list string := map (fun m => m +:+ " (Avg)") metrics.
Definition gpt4o_cols : list string := map (fun m => m +:+ " (GPT-4o)") metrics.
Definition claude_cols : list string :=
  map (fun m => m +:+ " (Sonnet3.5)") metrics.

(** [DataFrame.sum(axis=1)] on one row: missing values count as zero
    ([skipna=True]), and the columns are added from left to right to a
    sum that starts at zero. *)
Definition nan_to_zero (x : float) : float :=
  if isnan x then S754_zero false else x.

Definition nansum (l : list float) : float :=
  fold_left add (map nan_to_zero l) (S754_zero false).

(** The column [Sum]: [df[avg_cols].sum(axis=1)]. *)
Definition Sum (r : Row) : float := nansum (map (num r) avg_cols).

(** The frame the rows are rendered from. *)
Definition table_rows (df : list CsvRow) : list Row :=
  sort_values (normalize df).

(** ** Step 3: the longtable *)

Definition header_abbr : string :=
  join " & " (map (fun a => "\textbf{" +:+ a +:+ "}") abbrevs).

(** The text before the rows: the template opens with a newline. *)
Definition table_head : string :=
  lines [
    "";
    "% Requires in preamble:";
    "%   \usepackage{lscape,longtable,booktabs,adjustbox}  % adjustbox only if you use method 2";
    "\begin{landscape}";
    "% ==== Method 1: smaller font & tighter columns ====";
    "\small";
    "\setlength{\tabcolsep}{4pt}       % default is ~6pt";
    "\renewcommand{\arraystretch}{0.9}  % tighten row height";
    "\setlength{\LTleft}{0pt}          % left align longtable";
    "\setlength{\LTright}{0pt}         % right align longtable";
    "";
    "% ==== Method 2 (optional): force to 90% of width ====";
    "\begin{adjustbox}{width=0.9\textwidth,center}";
    "";
    "\begin{longtable}{|l|c|c|" +:+ str_mul "c" 5 +:+ "|c|" +:+ str_mul "c" 5 +:+ "|" +:+ str_mul "c" 5 +:+ "|}";
    "\caption{DeepEval Generation Quality Benchmark Results (Reordered)} \\";
    "\toprule";
    "\textbf{Model} & \textbf{Prompt} & \textbf{Temp} & \multicolumn{5}{c|}{\textbf{Avg. Scores}} & \textbf{Total} & \multicolumn{5}{c|}{\textbf{GPT-4o}} & \multicolumn{5}{c|}{\textbf{Claude 3.5}} \\";
    " & & & " +:+ header_abbr +:+ " & & " +:+ header_abbr +:+ " & " +:+ header_abbr +:+ " \\";
    "\midrule";
    "\endfirsthead";
    "";
    "\multicolumn{" +:+ str_int (3+5+1+5+5) +:+ "}{c}{\tablename\ \thetable{} -- continued from previous page} \\";
    "\midrule";
    "\textbf{Model} & \textbf{Prompt} & \textbf{Temp} & " +:+ header_abbr +:+ " & & " +:+ header_abbr +:+ " & " +:+ header_abbr +:+ " \\";
    "\midrule";
    "\endhead";
    "";
    "\midrule";
    "\multicolumn{" +:+ str_int (3+5+1+5+5) +:+ "}{r}{Continued on next page} \\";
    "\endfoot";
    "";
    "\bottomrule";
    "\endlastfoot" ].

Definition table_foot : string :=
  lines [
    "\end{longtable}";
    "\end{adjustbox}      % close Method 2";
    "\end{landscape}" ].

(** The cells of a row, as the loop body computes them. *)
Definition cell_m (r : Row) : string :=
  replace_underscore (str_obj (MappedModel r)).

Definition cell_p (r : Row) : string := str_obj (Prompt r).

Definition cell_t (r : Row) : string :=
  if negb (isnan (Temperature r)) then format_f 1 (Temperature r) else "-".

Definition cells_of (r : Row) (cols : list string) : list string :=
  map (fun c => format_f 2 (num r c)) cols.

Definition cell_total (r : Row) : string := format_f 2 (Sum r).

Definition row_line (r : Row) : string :=
  let m := cell_m r in
  let p := cell_p r in
  let t := cell_t r in
  let avg_vals := join " & " (cells_of r avg_cols) in
  let g4o_vals := join " & " (cells_of r gpt4o_cols) in
  let claude_vals := join " & " (cells_of r claude_cols) in
  let total := cell_total r in
  m +:+ " & " +:+ p +:+ " & " +:+ t +:+ " & " +:+ avg_vals +:+ " & " +:+
  total +:+ " & " +:+ g4o_vals +:+ " & " +:+ claude_vals +:+ " \\" +:+ nl.

(** The same cells as a list: a line is its cells joined by [" & "]. *)
Definition metric_cells (r : Row) : list string :=
  cells_of r avg_cols ++ [cell_total r]
  ++ cells_of r gpt4o_cols ++ cells_of r claude_cols.

Definition row_cells (r : Row) : list string :=
  [cell_m r; cell_p r; cell_t r] ++ metric_cells r.

(** The floats behind the metric cells, cell by cell. *)
Definition row_values (r : Row) : list float :=
  map (num r) avg_cols ++ [Sum r]
  ++ map (num r) gpt4o_cols ++ map (num r) claude_cols.

(** The lines of the rows, in the order they are appended. *)
Definition data_lines (df : list CsvRow) : list string :=
  map row_line (table_rows df).

(** The document of a frame that was read. *)
Definition latex_of (df : list CsvRow) : string :=
  fold_left (fun latex r => latex +:+ row_line r) (table_rows df) table_head
  +:+ table_foot.

(** [generate_full_latex_table(csv_path)], the file system being the
    function [read_csv]. *)
Definition generate_full_latex_table (read_csv : string -> read_result)
           (csv_path : string) : string :=
  match read_csv csv_path with
  | FileNotFoundError =>
      "Error: The file at " +:+ csv_path +:+ " was not found."
  | ReadException e =>
      "An error occurred while reading the CSV file: " +:+ e
  | ReadOk df => latex_of df
  end.

(** Every exit of the function is a [return]. *)
Definition call_generate (read_csv : string -> read_result)
           (csv_path : string) : outcome string :=
  Returns (generate_full_latex_table read_csv csv_path).

(** ** The sentences of the specification that the code departs from,
    as they are worded *)

(** An unreadable source makes the operation fail with the signal
    [SourceUnavailable]. *)
Definition is_read_ok (res : read_result) : bool :=
  match res with ReadOk _ => true | _ => false end.

Definition fails_when_unreadable (read_csv : string -> read_result)
           (csv_path : string) : Prop :=
  is_read_ok (read_csv csv_path) = false ->
  call_generate read_csv csv_path = Raises SourceUnavailable.

(** A file system with no file in it. *)
Definition no_file : string -> read_result := fun _ => FileNotFoundError.

(** Every metric and total cell of a row has exactly two decimals; the
    temperature has exactly one, or is the dash when the value is
    missing. *)
Definition renders_fixed_precision (r : Row) : Prop :=
  Forall (fun s => is_fixed_point 2 s = true) (metric_cells r)
  /\ (if isnan (Temperature r)
      then cell_t r = "-"
      else is_fixed_point 1 (cell_t r) = true).

(** ** Frames used as examples *)

(** The numeric columns given by a list, zero elsewhere. *)
Definition columns (l : list (string * float)) : string -> float :=
  fun c => default (S754_zero false)
                   ((list_to_map l : gmap string float) !! c).

Definition no_columns : string -> float := columns [].

(** The three rows of the sorting example: labels B, A, A. *)
Definition sorting_example : list CsvRow :=
  [ mkCsvRow (Str "B") (Str "previous_user_template.txt") (literal 5 1)
             no_columns;
    mkCsvRow (Str "A") (Str "current_user_template.txt") (literal 0 1)
             no_columns;
    mkCsvRow (Str "A") (Str "current_user_template.txt") (literal 7 1)
             no_columns ].

(** A row whose five averages are 0.80, 0.70, 0.60, 0.90 and 0.50. *)
Definition averages_example : string -> float :=
  columns [ ("Answer Relevancy (Avg)", literal 80 2);
            ("Correctness (Avg)", literal 70 2);
            ("Faithfulness (Avg)", literal 60 2);
            ("Hallucination (Avg)", literal 90 2);
            ("Specific Information Accuracy (Avg)", literal 50 2) ].

Definition total_example : list CsvRow :=
  [ mkCsvRow (Str "GENAI_SHARED_AZURE_OPENAI_O1")
             (Str "current_user_template.txt") S754_nan averages_example ].

(** A row whose Correctness average is missing. *)
Definition missing_metric_example : list CsvRow :=
  [ mkCsvRow (Str "A") (Str "current_user_template.txt") (literal 7 1)
             (columns [ ("Correctness (Avg)", S754_nan) ]) ].

(** Two rows of one model and prompt, the first without temperature. *)
Definition missing_temperature_example : list CsvRow :=
  [ mkCsvRow (Str "A") (Str "current_user_template.txt") S754_nan
             no_columns;
    mkCsvRow (Str "A") (Str "current_user_template.txt") (literal 7 1)
             no_columns ].

(** A model the curated table does not know, a prompt it drops. *)
Definition unmapped_example : list CsvRow :=
  [ mkCsvRow (Str "my_local_model") (Str "current_user_template.txt")
             (literal 2 1) no_columns;
    mkCsvRow (Str "my_local_model") (Str "draft_template.txt")
             (literal 2 1) no_columns ].

(** The pipeline of step 0 on one row, when the row is kept. *)
Definition shorten (r : CsvRow) : Row :=
  set_Prompt (series_map prompt_mapping (csv_Prompt r)) (rename r).

(** The order of two rows, as a relation. *)
Definition row_le (a b : Row) : Prop := row_leb a b = true.

(** Two rows tie when all three of their keys do. *)
Definition same_key (k r : Row) : bool :=
  match row_cmp k r with Eq => true | _ => false end.

(** A comparison that orders a type with ties: the opposite order is the
    opposite comparison, tied elements compare alike, and the strict
    order is transitive. *)
Class WeakOrder {A : Type} (cmp : A -> A -> comparison) : Prop := {
  cmp_opp : forall a b, cmp b a = CompOpp (cmp a b);
  cmp_tie : forall a b c, cmp a b = Eq -> cmp a c = cmp b c;
  cmp_lt_trans : forall a b c, cmp a b = Lt -> cmp b c = Lt -> cmp a c = Lt
}.

(** ** The script: [if __name__ == "__main__":] *)

(** What [with open(output_filename, 'w', encoding='utf-8') as f:
    f.write(latex_output)] does: it completes, or raises [IOError] (with
    its message), or raises something the script does not catch. *)
Inductive write_result : Type :=
| WriteOk
| WriteIOError (e : string)
| WriteRaises (e : exn).

(** A run of the script: the file saved (name and text) when the write
    completed, the lines printed, and how the run ended. *)
Record run : Type := mkRun {
  saved : option (string * string);
  printed : list string;
  ended : outcome unit
}.

Definition main (read_csv : string -> read_result)
           (write : string -> string -> write_result) : run :=
  let csv_file_path := "macro_evaluation_results.csv" in
  let output_filename := "latex_table.txt" in
  let latex_output := generate_full_latex_table read_csv csv_file_path in
  match write output_filename latex_output with
  | WriteOk =>
      mkRun (Some (output_filename, latex_output))
            [ "LaTeX table successfully saved to " +:+ output_filename ]
            (Returns tt)
  | WriteIOError e =>
      mkRun None
            [ "An error occurred while writing to the file: " +:+ e ]
            (Returns tt)
  | WriteRaises e => mkRun None [] (Raises e)
  end.

(** A sink that takes every text. *)
Definition always_writes : string -> string -> write_result :=
  fun _ _ => WriteOk.

(** ** More frames used as examples *)

(** A row whose Configuration cell is empty, before a row that has one. *)
Definition missing_model_example : list CsvRow :=
  [ mkCsvRow NaN (Str "current_user_template.txt") (literal 2 1) no_columns;
    mkCsvRow (Str "zeta") (Str "previous_user_template.txt") (literal 2 1)
             no_columns ].

(** A frame none of whose rows has a recognised prompt. *)
Definition unrecognised_example : list CsvRow :=
  [ mkCsvRow (Str "A") (Str "draft_template.txt") (literal 2 1) no_columns;
    mkCsvRow (Str "B") NaN (literal 2 1) no_columns ].

(** A row all of whose averages are missing. *)
Definition no_averages : string -> float :=
  columns [ ("Answer Relevancy (Avg)", S754_nan);
            ("Correctness (Avg)", S754_nan);
            ("Faithfulness (Avg)", S754_nan);
            ("Hallucination (Avg)", S754_nan);
            ("Specific Information Accuracy (Avg)", S754_nan) ].

Definition is_infinite (x : float) : bool :=
  match x with S754_infinity _ => true | _ => false end.

(** [needle in hay] *)
Fixpoint contains (needle hay : string) : bool :=
  String.prefix needle hay
  || match hay with
     | EmptyString => false
     | String _ rest => contains needle rest
     end.

(** The columns a column specification of a LaTeX table declares: one
    for each of the letters l, c and r. *)
Fixpoint count_columns (spec : string) : nat :=
  match spec with
  | EmptyString => 0
  | String c rest =>
      (if Ascii.eqb c "l" || Ascii.eqb c "c" || Ascii.eqb c "r"
       then 1 else 0) + count_columns rest
  end.

End LatexTable.

(* ===================================================================== *)
(** * Properties of the evaluation suite factory *)
(* ===================================================================== *)

Module DeepevalMetricsFacts.
Import PyFloat DeepevalMetrics.

Section Suite.
Context {LLM : Type}.
Implicit Types (model : option (model_ref LLM)) (include_reason : bool).

Lemma threshold_for_float (s : float) key dflt :
  threshold_for (ThFloat s) key dflt = s.
Proof. reflexivity. Qed.

Lemma threshold_for_dict (d : gmap string float) key dflt :
  threshold_for (ThDict d) key dflt
  = match d !! key with Some v => v | None => dflt end.
Proof. unfold threshold_for. destruct (d !! key); reflexivity. Qed.

Lemma get_metrics_names model thresholds include_reason :
  map metric_name (get_metrics model thresholds include_reason)
  = [ "Correctness"; "Specific Information Accuracy"; "Answer Relevancy";
      "Faithfulness"; "Hallucination" ].
Proof. reflexivity. Qed.

Lemma get_metrics_thresholds model thresholds include_reason :
  map metric_threshold (get_metrics model thresholds include_reason)
  = resolved_thresholds thresholds.
Proof. reflexivity. Qed.

(** With constructors that complete, a call returns the suite. *)
Lemma get_metrics_call_returns init model (t : thresholds_t) include_reason :
  Forall (fun c => init c = None) (get_metrics model t include_reason) ->
  get_metrics_call init model (OfType t) include_reason
  = Returns (get_metrics model t include_reason).
Proof.
  intros H. unfold get_metrics in H.
  repeat (apply Forall_cons in H as [? H]).
  unfold get_metrics_call, get_metrics, eval_threshold, construct.
  cbn [bind].
  repeat match goal with
         | E : init ?c = None |- _ => rewrite E; clear E; cbn [bind]
         end.
  reflexivity.
Qed.

(** C1. Threshold resolution.  A scalar policy [s] builds the five checks,
    each with the threshold [s]; a mapping builds the five checks, each
    with the entry under the check's name when there is one and otherwise
    with the fallback documented for that check (0.9, and 0.8 for
    Hallucination); looking a name up that the mapping lacks raises
    nothing, and a call whose constructors complete returns exactly this
    suite. *)
Theorem get_metrics_threshold_resolution model include_reason :
  (forall s : float,
      map (fun c => (metric_name c, metric_threshold c))
          (get_metrics model (ThFloat s) include_reason)
      = [ ("Correctness", s);
          ("Specific Information Accuracy", s);
          ("Answer Relevancy", s);
          ("Faithfulness", s);
          ("Hallucination", s) ])
  /\ (forall d : gmap string float,
      map (fun c => (metric_name c, metric_threshold c))
          (get_metrics model (ThDict d) include_reason)
      = map (fun name =>
               (name, match d !! name with
                      | Some v => v
                      | None => documented_fallback name
                      end))
            [ "Correctness"; "Specific Information Accuracy";
              "Answer Relevancy"; "Faithfulness"; "Hallucination" ])
  /\ map documented_fallback
         [ "Correctness"; "Specific Information Accuracy";
           "Answer Relevancy"; "Faithfulness"; "Hallucination" ]
     = [ literal 9 1; literal 9 1; literal 9 1; literal 9 1; literal 8 1 ]
  /\ map (fun c => (metric_name c, metric_threshold c))
         (get_metrics model (ThDict ∅) include_reason)
     = [ ("Correctness", literal 9 1);
         ("Specific Information Accuracy", literal 9 1);
         ("Answer Relevancy", literal 9 1);
         ("Faithfulness", literal 9 1);
         ("Hallucination", literal 8 1) ]
  /\ (forall (d : gmap string float) key dflt,
         eval_threshold (OfType (ThDict d)) key dflt
         = Returns (match d !! key with Some v => v | None => dflt end))
  /\ (forall (s : float) key dflt,
         eval_threshold (OfType (ThFloat s)) key dflt = Returns s)
  /\ (forall init (t : thresholds_t),
         Forall (fun c => init c = None)
                (get_metrics model t include_reason) ->
         get_metrics_call init model (OfType t) include_reason
         = Returns (get_metrics model t include_reason)).
Proof.
  split; [intros s; reflexivity|].
  split.
  { intros d. unfold get_metrics.
    cbn [map metric_name metric_threshold].
    rewrite !threshold_for_dict. reflexivity. }
  split; [vm_compute; reflexivity|].
  split; [vm_compute; reflexivity|].
  split.
  { intros d key dflt. unfold eval_threshold.
    now rewrite threshold_for_dict. }
  split; [reflexivity|].
  intros init t. apply get_metrics_call_returns.
Qed.

(** C8. Whatever the backend, the policy and the flag, the suite is five
    checks in this order: the rubric-graded Correctness and Specific
    Information Accuracy, then the classifiers Answer Relevancy,
    Faithfulness and Hallucination. *)
Theorem get_metrics_fixed_suite model thresholds include_reason :
  map (fun c => (metric_kind c, metric_name c))
      (get_metrics model thresholds include_reason)
  = [ (RubricGraded, "Correctness");
      (RubricGraded, "Specific Information Accuracy");
      (ClassifierBased, "Answer Relevancy");
      (ClassifierBased, "Faithfulness");
      (ClassifierBased, "Hallucination") ]
  /\ exists t1 t2 t3 t4 t5 c1 s1 p1 c2 s2 p2,
      get_metrics model thresholds include_reason
      = [ GEval LLM "Correctness" t1 c1 s1 p1 model false;
          GEval LLM "Specific Information Accuracy" t2 c2 s2 p2 model false;
          AnswerRelevancyMetric LLM t3 model include_reason;
          FaithfulnessMetric LLM t4 model include_reason;
          HallucinationMetric LLM t5 model include_reason ].
Proof.
  split; [reflexivity|].
  unfold get_metrics. do 11 eexists. reflexivity.
Qed.

Lemma construct_inv init (c c' : BaseMetric LLM) :
  construct init c = Returns c' -> init c = None /\ c' = c.
Proof.
  unfold construct. destruct (init c); [discriminate|].
  intros [= <-]. split; reflexivity.
Qed.

Lemma construct_raises init (c : BaseMetric LLM) e :
  construct init c = Raises e -> init c = Some e.
Proof.
  unfold construct. destruct (init c); [|discriminate].
  now intros [= ->].
Qed.

(** C5, as the code has it.  [get_metrics] checks no threshold.  Whatever
    the constructors of the library do: on a float or a mapping, when the
    five constructors complete, the call returns the five checks with the
    thresholds the policy resolves to, in [0,1] or not; on an int the
    call raises [AttributeError]; every other failure is one a
    constructor raised on a configuration of the suite, so that
    [InvalidThreshold] arises only if a constructor raises it; and what
    a call returns is never a part of the suite. *)
Theorem get_metrics_checks_no_threshold
        (init : BaseMetric LLM -> option exn) model
        (thresholds : thresholds_arg) include_reason :
  (forall t : thresholds_t,
      thresholds = OfType t ->
      Forall (fun c => init c = None) (get_metrics model t include_reason) ->
      get_metrics_call init model thresholds include_reason
      = Returns (get_metrics model t include_reason)
      /\ map metric_threshold (get_metrics model t include_reason)
         = resolved_thresholds t)
  /\ (forall n : Z,
         thresholds = PyInt n ->
         get_metrics_call init model thresholds include_reason
         = Raises AttributeError)
  /\ (forall e : exn,
         get_metrics_call init model thresholds include_reason = Raises e ->
         (exists n, thresholds = PyInt n /\ e = AttributeError)
         \/ (exists t c,
                thresholds = OfType t
                /\ In c (get_metrics model t include_reason)
                /\ init c = Some e))
  /\ (forall suite,
         get_metrics_call init model thresholds include_reason
         = Returns suite ->
         exists t, thresholds = OfType t
                   /\ suite = get_metrics model t include_reason
                   /\ length suite = 5).
Proof.
  split.
  { intros t -> H. split; [now apply get_metrics_call_returns|reflexivity]. }
  split; [intros n ->; reflexivity|].
  split.
  - intros e. destruct thresholds as [t|n].
    + intros H. right. exists t.
      unfold get_metrics_call, eval_threshold in H. cbn [bind] in H.
      unfold get_metrics.
      repeat match type of H with
             | bind (construct init ?c) _ = Raises _ =>
                 destruct (construct init c) as [c0|e0] eqn:E;
                 [ apply construct_inv in E as [_ ->]; cbn [bind] in H
                 | cbn [bind] in H; injection H as ->;
                   apply construct_raises in E;
                   exists c; split; [reflexivity|];
                   split; [|exact E]; cbn [In]; tauto ]
             end.
      discriminate H.
    + intros [= <-]. left. exists n. split; reflexivity.
  - intros suite. destruct thresholds as [t|n]; [|discriminate].
    intros H. exists t. split; [reflexivity|].
    unfold get_metrics_call, eval_threshold in H. cbn [bind] in H.
    repeat match type of H with
           | bind (construct init ?c) _ = Returns _ =>
               destruct (construct init c) as [c0|e0] eqn:E;
               [ apply construct_inv in E as [_ ->]; cbn [bind] in H
               | discriminate H ]
           end.
    injection H as <-. split; reflexivity.
Qed.

End Suite.

(** C5, as the specification words it, fails: the scalar policy 1.5 lies
    outside [0,1], and with constructors that complete the call returns
    five checks of threshold 1.5. *)
Lemma invalid_threshold_is_accepted :
  in_unit_interval f1_5 = false
  /\ get_metrics_call (DeepEvalBaseLLM := no_llm) constructors_complete
       None (OfType (ThFloat f1_5)) false
     = Returns (get_metrics None (ThFloat f1_5) false)
  /\ map (fun c => (metric_name c, metric_threshold c))
         (get_metrics (DeepEvalBaseLLM := no_llm) None (ThFloat f1_5) false)
     = [ ("Correctness", f1_5);
         ("Specific Information Accuracy", f1_5);
         ("Answer Relevancy", f1_5);
         ("Faithfulness", f1_5);
         ("Hallucination", f1_5) ]
  /\ ~ fails_on_invalid_threshold (DeepEvalBaseLLM := no_llm)
         constructors_complete None (ThFloat f1_5) false.
Proof.
  repeat split.
  intros H. unfold fails_on_invalid_threshold in H.
  assert (Hex : Exists (fun t => in_unit_interval t = false)
                       (resolved_thresholds (ThFloat f1_5))).
  { apply Exists_cons_hd. reflexivity. }
  specialize (H Hex). discriminate H.
Qed.

End DeepevalMetricsFacts.

(* ===================================================================== *)
(** * Facts on formatting floats *)
(* ===================================================================== *)

Module PyFloatFacts.
Import PyFloat.

Lemma all_digits_app a b :
  all_digits (a +:+ b) = all_digits a && all_digits b.
Proof.
  induction a as [|c a IH]; simpl; [reflexivity|].
  rewrite IH. apply andb_assoc.
Qed.

Lemma length_app_string a b :
  String.length (a +:+ b) = String.length a + String.length b.
Proof. induction a as [|c a IH]; simpl; [reflexivity|]. now rewrite IH. Qed.

Lemma is_digit_not_point c : is_digit c = true -> Ascii.eqb c "." = false.
Proof.
  destruct c as [[|] [|] [|] [|] [|] [|] [|] [|]];
    first [ reflexivity | discriminate ].
Qed.

Lemma is_digit_not_minus c : is_digit c = true -> Ascii.eqb c "-" = false.
Proof.
  destruct c as [[|] [|] [|] [|] [|] [|] [|] [|]];
    first [ reflexivity | discriminate ].
Qed.

Lemma is_digit_digit_char n : is_digit (digit_char (n mod 10)) = true.
Proof.
  assert (H : (0 <= n mod 10 < 10)%Z) by (apply Z.mod_pos_bound; lia).
  remember (n mod 10)%Z as z eqn:Hz. clear Hz.
  assert (Hc : z = 0%Z \/ z = 1%Z \/ z = 2%Z \/ z = 3%Z \/ z = 4%Z \/ z = 5%Z
               \/ z = 6%Z \/ z = 7%Z \/ z = 8%Z \/ z = 9%Z) by lia.
  repeat (destruct Hc as [-> | Hc]; [reflexivity|]). subst. reflexivity.
Qed.

Lemma all_digits_fixed_width d n : all_digits (fixed_width d n) = true.
Proof.
  revert n. induction d as [|d IH]; intros n; simpl; [reflexivity|].
  rewrite all_digits_app, IH. simpl. now rewrite is_digit_digit_char.
Qed.

Lemma length_fixed_width d n : String.length (fixed_width d n) = d.
Proof.
  revert n. induction d as [|d IH]; intros n; simpl; [reflexivity|].
  rewrite length_app_string, IH. simpl. lia.
Qed.

Lemma all_digits_uint u : all_digits (NilEmpty.string_of_uint u) = true.
Proof. induction u; simpl; auto. Qed.

Lemma all_digits_digits n : all_digits (digits n) = true.
Proof.
  unfold digits, NilZero.string_of_uint.
  destruct (N.to_uint (Z.to_N n)) eqn:E; try reflexivity;
    rewrite <- E at 1; try apply all_digits_uint.
Qed.


Lemma digits_nonempty n : digits n <> EmptyString.
Proof.
  unfold digits, NilZero.string_of_uint.
  destruct (N.to_uint (Z.to_N n)); simpl; discriminate.
Qed.

Lemma split_at_point_digits ip fp :
  all_digits ip = true ->
  split_at_point (ip +:+ String "." fp) = Some (ip, fp).
Proof.
  induction ip as [|c ip IH]; simpl; [reflexivity|].
  intros [Hc Hip]%andb_true_iff.
  rewrite (is_digit_not_point c Hc), (IH Hip). reflexivity.
Qed.

Lemma strip_sign_digits s ip rest :
  all_digits ip = true -> ip <> EmptyString ->
  strip_sign (sign s +:+ ip +:+ rest) = ip +:+ rest.
Proof.
  intros Hd Hne. destruct s; simpl; [reflexivity|].
  destruct ip as [|c ip]; [congruence|]. simpl in *.
  apply andb_true_iff in Hd as [Hc _].
  now rewrite (is_digit_not_minus c Hc).
Qed.

(** An optional sign, digits, a point and [d] digits are fixed-point
    notation with [d] decimals. *)
Lemma is_fixed_point_intro d s ip fp :
  all_digits ip = true -> ip <> EmptyString ->
  all_digits fp = true -> String.length fp = d ->
  is_fixed_point d (sign s +:+ ip +:+ "." +:+ fp) = true.
Proof.
  intros Hip Hne Hfp Hlen. unfold is_fixed_point.
  rewrite strip_sign_digits by assumption.
  change ("." +:+ fp) with (String "." fp).
  rewrite split_at_point_digits by assumption.
  rewrite Hip, Hfp, Hlen, Nat.eqb_refl.
  destruct ip; [congruence|reflexivity].
Qed.

Lemma is_fixed_point_fixed d s n :
  is_fixed_point (S d) (sign s +:+ fixed (S d) n) = true.
Proof.
  unfold fixed. apply is_fixed_point_intro.
  - apply all_digits_digits.
  - apply digits_nonempty.
  - apply all_digits_fixed_width.
  - apply length_fixed_width.
Qed.

(** A finite float prints in fixed-point notation with exactly the
    decimals asked for. *)
Lemma format_f_fixed_point d x :
  is_finite x = true -> is_fixed_point (S d) (format_f (S d) x) = true.
Proof.
  destruct x as [s|s| |s m e]; try discriminate; intros _;
    apply is_fixed_point_fixed.
Qed.

Lemma format_f_not_finite d x :
  is_finite x = false -> is_fixed_point d (format_f d x) = false.
Proof.
  destruct x as [s|[|]| |s m e]; try discriminate; intros _; reflexivity.
Qed.

End PyFloatFacts.

(* ===================================================================== *)
(** * The order of the sort *)
(* ===================================================================== *)

Module OrderFacts.
Import PyFloat LatexTable.

Section WeakOrderFacts.
Context {A : Type} (cmp : A -> A -> comparison) `{!WeakOrder cmp}.

Lemma cmp_refl a : cmp a a = Eq.
Proof.
  pose proof (cmp_opp a a) as H. destruct (cmp a a); simpl in H; congruence.
Qed.

Lemma cmp_gt_lt a b : cmp a b = Gt -> cmp b a = Lt.
Proof. intros H. rewrite (cmp_opp a b), H. reflexivity. Qed.

Lemma cmp_lt_gt a b : cmp a b = Lt -> cmp b a = Gt.
Proof. intros H. rewrite (cmp_opp a b), H. reflexivity. Qed.

Lemma cmp_eq_sym a b : cmp a b = Eq -> cmp b a = Eq.
Proof. intros H. rewrite (cmp_opp a b), H. reflexivity. Qed.

Lemma cmp_tie_r a b c : cmp b c = Eq -> cmp a b = cmp a c.
Proof.
  intros H. rewrite (cmp_opp b a), (cmp_opp c a).
  f_equal. apply cmp_tie. assumption.
Qed.

(** Not exceeding is transitive. *)
Lemma cmp_le_trans a b c : cmp a b <> Gt -> cmp b c <> Gt -> cmp a c <> Gt.
Proof.
  intros Hab Hbc.
  destruct (cmp a b) eqn:Eab; [| |congruence].
  - rewrite (cmp_tie a b c Eab). assumption.
  - destruct (cmp b c) eqn:Ebc; [| |congruence].
    + rewrite <- (cmp_tie_r a b c Ebc), Eab. discriminate.
    + rewrite (cmp_lt_trans a b c Eab Ebc). discriminate.
Qed.

End WeakOrderFacts.

(** A weak order on keys orders what carries the keys. *)
Lemma weak_order_on {A B : Type} (f : A -> B) (cmp : B -> B -> comparison) :
  WeakOrder cmp -> WeakOrder (fun a b => cmp (f a) (f b)).
Proof.
  intros W. split; intros.
  - apply cmp_opp.
  - now apply cmp_tie.
  - now apply (cmp_lt_trans (f a) (f b) (f c)).
Qed.

(** Two weak orders, the first deciding unless it ties. *)
Lemma weak_order_lex {A : Type} (c1 c2 : A -> A -> comparison) :
  WeakOrder c1 -> WeakOrder c2 ->
  WeakOrder (fun a b => lex (c1 a b) (c2 a b)).
Proof.
  intros W1 W2. split.
  - intros a b. rewrite (cmp_opp (cmp := c1) a b), (cmp_opp (cmp := c2) a b).
    destruct (c1 a b); reflexivity.
  - intros a b c. unfold lex.
    destruct (c1 a b) eqn:E1; try discriminate. intros E2.
    rewrite (cmp_tie (cmp := c1) a b c E1), (cmp_tie (cmp := c2) a b c E2).
    reflexivity.
  - intros a b c. unfold lex.
    destruct (c1 a b) eqn:Eab; try discriminate.
    + rewrite (cmp_tie (cmp := c1) a b c Eab).
      destruct (c1 b c); try discriminate; [|reflexivity].
      apply cmp_lt_trans.
    + intros _. destruct (c1 b c) eqn:Ebc; try discriminate.
      * intros _. rewrite <- (cmp_tie_r c1 a b c Ebc), Eab. reflexivity.
      * intros _. rewrite (cmp_lt_trans a b c Eab Ebc). reflexivity.
Qed.


Lemma ascii_compare_refl c : Ascii.compare c c = Eq.
Proof. apply N.compare_refl. Qed.

Lemma ascii_compare_lt_trans a b c :
  Ascii.compare a b = Lt -> Ascii.compare b c = Lt -> Ascii.compare a c = Lt.
Proof.
  unfold Ascii.compare. rewrite !N.compare_lt_iff. apply N.lt_trans.
Qed.

Lemma string_compare_lt_trans a b c :
  String.compare a b = Lt -> String.compare b c = Lt ->
  String.compare a c = Lt.
Proof.
  revert b c. induction a as [|x a IH]; intros [|y b] [|z c]; simpl;
    try discriminate; try reflexivity.
  destruct (Ascii.compare x y) eqn:Exy; try discriminate;
    destruct (Ascii.compare y z) eqn:Eyz; try discriminate.
  - apply Ascii.compare_eq_iff in Exy, Eyz. subst.
    rewrite ascii_compare_refl. apply IH.
  - apply Ascii.compare_eq_iff in Exy. subst. rewrite Eyz. reflexivity.
  - apply Ascii.compare_eq_iff in Eyz. subst. rewrite Exy. reflexivity.
  - rewrite (ascii_compare_lt_trans x y z Exy Eyz). reflexivity.
Qed.

#[export] Instance string_weak_order : WeakOrder String.compare.
Proof.
  split.
  - intros a b. apply String.compare_antisym.
  - intros a b c H. apply String.compare_eq_iff in H. now subst.
  - apply string_compare_lt_trans.
Qed.

#[export] Instance obj_weak_order : WeakOrder cmp_obj.
Proof.
  split.
  - intros [a|] [b|]; simpl; try reflexivity. apply String.compare_antisym.
  - intros [a|] [b|] [c|]; simpl; try discriminate; try reflexivity.
    apply (cmp_tie (cmp := String.compare)).
  - intros [a|] [b|] [c|]; simpl; try discriminate; try reflexivity.
    apply string_compare_lt_trans.
Qed.

Lemma cmp_em_weak : WeakOrder (fun a b : Z * positive =>
                                 cmp_em (fst a) (snd a) (fst b) (snd b)).
Proof.
  split.
  - intros [e1 m1] [e2 m2]. unfold cmp_em; simpl.
    rewrite (Z.compare_antisym e1 e2).
    destruct (e1 ?= e2)%Z; simpl; try reflexivity.
    change (Pos.compare_cont Eq m2 m1) with (Pos.compare m2 m1).
    change (Pos.compare_cont Eq m1 m2) with (Pos.compare m1 m2).
    apply Pos.compare_antisym.
  - intros [e1 m1] [e2 m2] [e3 m3]. unfold cmp_em; simpl.
    destruct (Z.compare_spec e1 e2); try discriminate. subst.
    change (Pos.compare_cont Eq m1 m2) with (Pos.compare m1 m2).
    intros ->%Pos.compare_eq. reflexivity.
  - intros [e1 m1] [e2 m2] [e3 m3]. unfold cmp_em; simpl.
    change (Pos.compare_cont Eq m1 m2) with (Pos.compare m1 m2).
    change (Pos.compare_cont Eq m2 m3) with (Pos.compare m2 m3).
    change (Pos.compare_cont Eq m1 m3) with (Pos.compare m1 m3).
    destruct (Z.compare_spec e1 e2); try discriminate;
      destruct (Z.compare_spec e2 e3); try discriminate;
      destruct (Z.compare_spec e1 e3); try lia; try reflexivity;
      rewrite ?Pos.compare_lt_iff; intros; lia.
Qed.


Lemma cmp_em_opp e1 m1 e2 m2 :
  cmp_em e2 m2 e1 m1 = CompOpp (cmp_em e1 m1 e2 m2).
Proof. apply (cmp_opp (WeakOrder := cmp_em_weak) (e1, m1) (e2, m2)). Qed.

Lemma cmp_em_tie e1 m1 e2 m2 e3 m3 :
  cmp_em e1 m1 e2 m2 = Eq -> cmp_em e1 m1 e3 m3 = cmp_em e2 m2 e3 m3.
Proof. apply (cmp_tie (WeakOrder := cmp_em_weak) (e1, m1) (e2, m2) (e3, m3)). Qed.

Lemma cmp_em_lt_trans e1 m1 e2 m2 e3 m3 :
  cmp_em e1 m1 e2 m2 = Lt -> cmp_em e2 m2 e3 m3 = Lt ->
  cmp_em e1 m1 e3 m3 = Lt.
Proof.
  apply (cmp_lt_trans (WeakOrder := cmp_em_weak) (e1, m1) (e2, m2) (e3, m3)).
Qed.

Lemma cmp_em_gt_trans e1 m1 e2 m2 e3 m3 :
  cmp_em e1 m1 e2 m2 = Gt -> cmp_em e2 m2 e3 m3 = Gt ->
  cmp_em e1 m1 e3 m3 = Gt.
Proof.
  intros H12 H23.
  rewrite (cmp_em_opp e3 m3 e1 m1).
  rewrite (cmp_em_lt_trans e3 m3 e2 m2 e1 m1); [reflexivity| |].
  - rewrite cmp_em_opp, H23. reflexivity.
  - rewrite cmp_em_opp, H12. reflexivity.
Qed.

Lemma cmp_float_finite s1 m1 e1 s2 m2 e2 :
  cmp_float (S754_finite s1 m1 e1) (S754_finite s2 m2 e2)
  = match s1, s2 with
    | true, false => Lt
    | false, true => Gt
    | false, false => cmp_em e1 m1 e2 m2
    | true, true => CompOpp (cmp_em e1 m1 e2 m2)
    end.
Proof.
  unfold cmp_float, cmp_em. simpl.
  destruct s1, s2; try reflexivity; destruct (e1 ?= e2)%Z; reflexivity.
Qed.

#[export] Instance float_weak_order : WeakOrder cmp_float.
Proof.
  split.
  - intros [s1|s1| |s1 m1 e1] [s2|s2| |s2 m2 e2];
      rewrite ?cmp_float_finite; try (destruct s1); try (destruct s2);
      try reflexivity; rewrite cmp_em_opp; try reflexivity;
      now rewrite CompOpp_involutive.
  - intros [s1|s1| |s1 m1 e1] [s2|s2| |s2 m2 e2] [s3|s3| |s3 m3 e3];
      rewrite ?cmp_float_finite; try (destruct s1); try (destruct s2);
      try (destruct s3); try discriminate; try reflexivity.
    + intros H. f_equal. apply cmp_em_tie.
      destruct (cmp_em e1 m1 e2 m2); try discriminate; reflexivity.
    + apply cmp_em_tie.
  - intros [s1|s1| |s1 m1 e1] [s2|s2| |s2 m2 e2] [s3|s3| |s3 m3 e3];
      rewrite ?cmp_float_finite; try (destruct s1); try (destruct s2);
      try (destruct s3); try discriminate; try reflexivity.
    + intros H12 H23.
      rewrite (cmp_em_gt_trans e1 m1 e2 m2 e3 m3); [reflexivity| |].
      * destruct (cmp_em e1 m1 e2 m2); try discriminate; reflexivity.
      * destruct (cmp_em e2 m2 e3 m3); try discriminate; reflexivity.
    + apply cmp_em_lt_trans.
Qed.

#[export] Instance row_weak_order : WeakOrder row_cmp.
Proof.
  unfold row_cmp.
  apply (weak_order_lex (fun a b => cmp_obj (MappedModel a) (MappedModel b))).
  - apply (weak_order_on MappedModel), obj_weak_order.
  - apply (weak_order_lex (fun a b => cmp_obj (Prompt a) (Prompt b))
                          (fun a b => cmp_float (Temperature a) (Temperature b))).
    + apply (weak_order_on Prompt), obj_weak_order.
    + apply (weak_order_on Temperature), float_weak_order.
Qed.

End OrderFacts.

(* ===================================================================== *)
(** * The sort *)
(* ===================================================================== *)

Module SortFacts.
Import PyFloat LatexTable OrderFacts.

Lemma row_leb_total a b : row_leb a b = false -> row_leb b a = true.
Proof.
  unfold row_leb. destruct (row_cmp a b) eqn:E; try discriminate.
  intros _. rewrite (cmp_gt_lt row_cmp a b E). reflexivity.
Qed.

Lemma row_le_trans a b c : row_le a b -> row_le b c -> row_le a c.
Proof.
  unfold row_le, row_leb. intros Hab Hbc.
  pose proof (cmp_le_trans row_cmp a b c) as H.
  destruct (row_cmp a b); try discriminate;
    destruct (row_cmp b c); try discriminate;
    destruct (row_cmp a c); try reflexivity;
    exfalso; apply H; congruence.
Qed.

Lemma row_le_refl a : row_le a a.
Proof. unfold row_le, row_leb. now rewrite (cmp_refl row_cmp). Qed.

Lemma insert_row_perm r l : Permutation (insert_row r l) (r :: l).
Proof.
  induction l as [|x t IH]; simpl; [reflexivity|].
  destruct (row_leb r x); [reflexivity|].
  rewrite IH. apply perm_swap.
Qed.

Lemma sort_values_perm l : Permutation (sort_values l) l.
Proof.
  induction l as [|x t IH]; simpl; [reflexivity|].
  rewrite insert_row_perm. now apply perm_skip.
Qed.

Lemma insert_row_sorted r l :
  StronglySorted row_le l -> StronglySorted row_le (insert_row r l).
Proof.
  induction 1 as [|x t Ht IH Hx]; simpl.
  - repeat constructor.
  - destruct (row_leb r x) eqn:E.
    + constructor; [constructor; assumption|].
      constructor; [exact E|].
      eapply Forall_impl; [exact Hx|].
      intros y Hy. eapply row_le_trans; [exact E|exact Hy].
    + constructor; [exact IH|].
      eapply Permutation_Forall; [symmetry; apply insert_row_perm|].
      constructor; [|exact Hx]. apply row_leb_total, E.
Qed.

Lemma sort_values_sorted l : StronglySorted row_le (sort_values l).
Proof.
  induction l as [|x t IH]; simpl; [constructor|].
  apply insert_row_sorted, IH.
Qed.

Lemma same_key_both k a b :
  same_key k a = true -> same_key k b = true -> row_cmp a b = Eq.
Proof.
  unfold same_key. intros Ha Hb.
  destruct (row_cmp k a) eqn:Ea; try discriminate.
  destruct (row_cmp k b) eqn:Eb; try discriminate.
  rewrite <- (cmp_tie (cmp := row_cmp) k a b Ea). exact Eb.
Qed.

Lemma insert_row_stable k r l :
  filter (same_key k) (insert_row r l) = filter (same_key k) (r :: l).
Proof.
  induction l as [|x t IH]; [reflexivity|].
  cbn [insert_row]. destruct (row_leb r x) eqn:E; [reflexivity|].
  rewrite filter_cons, IH, !filter_cons.
  destruct (decide (same_key k x)) as [Hx|Hx];
    destruct (decide (same_key k r)) as [Hr|Hr]; try reflexivity.
  exfalso. apply Is_true_true in Hx, Hr.
  unfold row_leb in E. rewrite (same_key_both k r x Hr Hx) in E. discriminate.
Qed.

Lemma sort_values_stable k l :
  filter (same_key k) (sort_values l) = filter (same_key k) l.
Proof.
  induction l as [|x t IH]; [reflexivity|].
  cbn [sort_values fold_right]. rewrite insert_row_stable.
  fold (sort_values t). rewrite !filter_cons, IH. reflexivity.
Qed.

End SortFacts.

(* ===================================================================== *)
(** * Properties of the report generator *)
(* ===================================================================== *)

Module TableFacts.
Import PyFloat LatexTable OrderFacts SortFacts PyFloatFacts.

Lemma prompt_mapping_lookup s :
  prompt_mapping !! s
  = if decide (s = "current_user_template.txt") then Some "P1"
    else if decide (s = "previous_user_template.txt") then Some "P2"
    else None.
Proof.
  unfold prompt_mapping. cbn [list_to_map foldr curry fst snd].
  rewrite lookup_insert. case_decide; [subst; now rewrite decide_True|].
  rewrite decide_False by congruence.
  rewrite lookup_insert. case_decide; [subst; now rewrite decide_True|].
  rewrite decide_False by congruence. apply lookup_empty.
Qed.

Lemma isin_prompt_mapping c :
  isin c prompt_mapping = true
  <-> c = Str "current_user_template.txt"
      \/ c = Str "previous_user_template.txt".
Proof.
  destruct c as [s|]; simpl.
  - rewrite prompt_mapping_lookup.
    destruct (decide (s = "current_user_template.txt")) as [->|N1];
      [split; auto|].
    destruct (decide (s = "previous_user_template.txt")) as [->|N2];
      [split; auto|].
    split; [discriminate|]. intros [E|E]; congruence.
  - split; [discriminate|]. intros [H|H]; discriminate.
Qed.

Lemma normalize_shorten df :
  normalize df
  = map shorten (filter (fun r => isin (csv_Prompt r) prompt_mapping) df).
Proof.
  unfold normalize. induction df as [|r df IH]; [reflexivity|].
  cbn [map]. rewrite !filter_cons. cbn [Prompt rename].
  destruct (decide (isin (csv_Prompt r) prompt_mapping)); cbn [map];
    rewrite IH; reflexivity.
Qed.

Lemma cell_p_shorten r :
  isin (csv_Prompt r) prompt_mapping = true ->
  (csv_Prompt r = Str "current_user_template.txt"
   /\ Prompt (shorten r) = Str "P1")
  \/ (csv_Prompt r = Str "previous_user_template.txt"
      /\ Prompt (shorten r) = Str "P2").
Proof.
  intros [H|H]%isin_prompt_mapping; [left|right]; split; try assumption;
    unfold shorten; cbn [Prompt set_Prompt]; rewrite H; reflexivity.
Qed.

Lemma append_cons x (a b : string) : String x a +:+ b = String x (a +:+ b).
Proof. reflexivity. Qed.

Lemma append_assoc (a b c : string) : (a +:+ b) +:+ c = a +:+ (b +:+ c).
Proof.
  induction a as [|x a IH]; [reflexivity|].
  now rewrite !append_cons, IH.
Qed.

Lemma append_nil_r (a : string) : a +:+ "" = a.
Proof.
  induction a as [|x a IH]; [reflexivity|]. now rewrite append_cons, IH.
Qed.

Lemma concat_cons (x : string) t :
  String.concat "" (x :: t) = x +:+ String.concat "" t.
Proof. destruct t; [symmetry; apply append_nil_r|reflexivity]. Qed.

Lemma fold_left_append (f : Row -> string) l acc :
  fold_left (fun latex r => latex +:+ f r) l acc
  = acc +:+ String.concat "" (map f l).
Proof.
  revert acc. induction l as [|x t IH]; intros acc.
  - symmetry. apply append_nil_r.
  - cbn [fold_left map]. rewrite IH, concat_cons. apply append_assoc.
Qed.

(** The document is the head, the lines of the rows and the foot. *)
Lemma latex_of_parts df :
  latex_of df
  = table_head +:+ String.concat "" (data_lines df) +:+ table_foot.
Proof.
  unfold latex_of, data_lines. rewrite fold_left_append.
  apply append_assoc.
Qed.

Lemma table_rows_perm df :
  Permutation (table_rows df)
    (map shorten (filter (fun r => isin (csv_Prompt r) prompt_mapping) df)).
Proof.
  unfold table_rows. rewrite sort_values_perm, normalize_shorten.
  reflexivity.
Qed.

Lemma join_cons sep x y t :
  join sep (x :: y :: t) = x +:+ sep +:+ join sep (y :: t).
Proof. reflexivity. Qed.

Lemma join_app sep (a b : list string) :
  a <> [] -> b <> [] ->
  join sep (a ++ b) = join sep a +:+ sep +:+ join sep b.
Proof.
  intros Ha Hb. induction a as [|x [|y t] IH]; [congruence| |].
  - destruct b; [congruence|]. reflexivity.
  - change ((x :: y :: t) ++ b) with (x :: (y :: t) ++ b).
    change ((y :: t) ++ b) with (y :: t ++ b) at 1.
    rewrite join_cons. change (y :: t ++ b) with ((y :: t) ++ b).
    rewrite IH by discriminate.
    rewrite join_cons, !append_assoc. reflexivity.
Qed.

Lemma cells_of_nonempty r cols : cols <> [] -> cells_of r cols <> [].
Proof. destruct cols; [congruence|discriminate]. Qed.

Lemma app_nonempty_l {A} (a b : list A) : a <> [] -> a ++ b <> [].
Proof. destruct a; [congruence|discriminate]. Qed.

(** A line is its cells joined. *)
Lemma row_line_join (r : Row) :
  row_line r = join " & " (row_cells r) +:+ " \\" +:+ nl.
Proof.
  unfold row_line, row_cells, metric_cells.
  assert (N1 : cells_of r avg_cols <> [])
    by (apply cells_of_nonempty; discriminate).
  assert (N2 : cells_of r gpt4o_cols <> [])
    by (apply cells_of_nonempty; discriminate).
  assert (N3 : cells_of r claude_cols <> [])
    by (apply cells_of_nonempty; discriminate).
  generalize dependent (cells_of r claude_cols).
  generalize dependent (cells_of r gpt4o_cols).
  generalize dependent (cells_of r avg_cols).
  intros A NA G NG C NC.
  rewrite (join_app _ [cell_m r; cell_p r; cell_t r]);
    [|discriminate|now apply app_nonempty_l].
  rewrite (join_app _ A); [|exact NA|discriminate].
  rewrite (join_app _ [cell_total r]);
    [|discriminate|now apply app_nonempty_l].
  rewrite (join_app _ G); [|exact NG|exact NC].
  cbn [join]. rewrite !append_assoc. reflexivity.
Qed.

(** The line of a row opens with its label, its prompt and its
    temperature. *)
Lemma row_line_opening (r : Row) :
  exists rest,
    row_line r
    = cell_m r +:+ " & " +:+ cell_p r +:+ " & " +:+ cell_t r +:+ " & "
      +:+ rest.
Proof. unfold row_line. eexists. reflexivity. Qed.

Lemma concat_app (a b : list string) :
  String.concat "" (a ++ b) = String.concat "" a +:+ String.concat "" b.
Proof.
  induction a as [|x a IH]; [reflexivity|].
  cbn [app]. rewrite !concat_cons, IH. symmetry. apply append_assoc.
Qed.

(** The line of every row of the working frame stands in the document. *)
Lemma line_in_document df r :
  In r (table_rows df) ->
  exists before after, latex_of df = before +:+ row_line r +:+ after.
Proof.
  intros Hin. apply in_split in Hin as (l1 & l2 & E).
  rewrite latex_of_parts. unfold data_lines. rewrite E.
  rewrite map_app. cbn [map]. rewrite concat_app, concat_cons.
  exists (table_head +:+ String.concat "" (map row_line l1)),
         (String.concat "" (map row_line l2) +:+ table_foot).
  rewrite !append_assoc. reflexivity.
Qed.

Lemma shorten_in_table_rows df raw :
  In raw df -> isin (csv_Prompt raw) prompt_mapping = true ->
  In (shorten raw) (table_rows df).
Proof.
  intros Hin Hp.
  eapply Permutation_in; [symmetry; apply table_rows_perm|].
  apply list_elem_of_In, list_elem_of_fmap. exists raw. split; [reflexivity|].
  apply list_elem_of_filter. split; [now apply Is_true_true|].
  now apply list_elem_of_In.
Qed.

Lemma strongly_sorted_lookup {A} (R : A -> A -> Prop) (l : list A) i j a b :
  StronglySorted R l -> l !! i = Some a -> l !! j = Some b -> i < j -> R a b.
Proof.
  intros Hs. revert i j a b.
  induction Hs as [|x t Ht IH Hx]; intros i j a b Hi Hj Hij.
  - discriminate.
  - destruct j as [|j]; [lia|]. destruct i as [|i]; simpl in Hi, Hj.
    + injection Hi as <-. rewrite Forall_forall in Hx.
      apply Hx. eapply list_elem_of_lookup_2. exact Hj.
    + apply (IH i j a b Hi Hj). lia.
Qed.

Lemma cmp_float_nan_l x :
  isnan x = false -> cmp_float S754_nan x = Gt.
Proof. destruct x; try discriminate; reflexivity. Qed.

(** C2. The rows are rendered in ascending order of the triple (display
    label, prompt code, temperature), rows of equal triples staying in the
    order of the frame; nothing is added or lost by the sort.  The rows
    (B, P2, 0.5), (A, P1, 0.0), (A, P1, 0.7) come out as the two A rows by
    ascending temperature, then the B row. *)
Theorem rows_sorted_stably :
  (forall df,
      StronglySorted row_le (table_rows df)
      /\ Permutation (table_rows df) (normalize df)
      /\ (forall k, filter (same_key k) (table_rows df)
                    = filter (same_key k) (normalize df))
      /\ data_lines df = map row_line (table_rows df))
  /\ map (fun r => (cell_m r, cell_p r, cell_t r)) (table_rows sorting_example)
     = [ ("A", "P1", "0.0"); ("A", "P1", "0.7"); ("B", "P2", "0.5") ].
Proof.
  split.
  - intros df. unfold table_rows. repeat split.
    + apply sort_values_sorted.
    + apply sort_values_perm.
    + intros k. apply sort_values_stable.
  - vm_compute. reflexivity.
Qed.

(** C10. Among the rows of one display label and one prompt code, a row
    without temperature comes after every row that has one. *)
Theorem missing_temperature_last (df : list CsvRow) (i j : nat) (a b : Row) :
  table_rows df !! i = Some a ->
  table_rows df !! j = Some b ->
  MappedModel a = MappedModel b ->
  Prompt a = Prompt b ->
  isnan (Temperature a) = true ->
  isnan (Temperature b) = false ->
  j < i.
Proof.
  intros Hi Hj Hm Hp Ha Hb.
  destruct (Nat.lt_trichotomy i j) as [Hlt|[->|Hgt]]; [exfalso| exfalso |exact Hgt].
  - pose proof (strongly_sorted_lookup row_le _ i j a b
                  (sort_values_sorted _) Hi Hj Hlt) as Hle.
    unfold row_le, row_leb, row_cmp in Hle.
    rewrite Hm, Hp, !(cmp_refl cmp_obj) in Hle. cbn [lex] in Hle.
    destruct (Temperature a); try discriminate.
    rewrite (cmp_float_nan_l _ Hb) in Hle. discriminate.
  - rewrite Hi in Hj. injection Hj as ->. congruence.
Qed.

Lemma missing_temperature_last_witness :
  table_rows missing_temperature_example !! 1
  = Some (mkRow (Str "A") (Str "P1") S754_nan no_columns)
  /\ table_rows missing_temperature_example !! 0
     = Some (mkRow (Str "A") (Str "P1") (literal 7 1) no_columns)
  /\ MappedModel (mkRow (Str "A") (Str "P1") S754_nan no_columns)
     = MappedModel (mkRow (Str "A") (Str "P1") (literal 7 1) no_columns)
  /\ isnan S754_nan = true
  /\ isnan (literal 7 1) = false
  /\ 0 < 1.
Proof.
  repeat (split; [reflexivity|]).
  apply (missing_temperature_last missing_temperature_example 1 0
           (mkRow (Str "A") (Str "P1") S754_nan no_columns)
           (mkRow (Str "A") (Str "P1") (literal 7 1) no_columns));
    reflexivity.
Defined.

(** C3. The document is the head, one line per row of the working frame
    and the foot; those lines are, each once, the lines of the rows of the
    source whose Prompt is one of the two recognised identifiers; the line
    of such a row stands in the document and reads label, then P1 for the
    one identifier and P2 for the other, then the rest; the rows of any
    other Prompt have no line, and no other row is left out. *)
Theorem prompt_filter (df : list CsvRow) :
  latex_of df
  = table_head +:+ String.concat "" (data_lines df) +:+ table_foot
  /\ Permutation (data_lines df)
       (map (fun r => row_line (shorten r))
            (filter (fun r => isin (csv_Prompt r) prompt_mapping) df))
  /\ Permutation (table_rows df)
       (map shorten (filter (fun r => isin (csv_Prompt r) prompt_mapping) df))
  /\ (forall c, isin c prompt_mapping = true
                <-> c = Str "current_user_template.txt"
                    \/ c = Str "previous_user_template.txt")
  /\ (forall r, csv_Prompt r = Str "current_user_template.txt" ->
                cell_p (shorten r) = "P1"
                /\ exists rest,
                    row_line (shorten r)
                    = cell_m (shorten r) +:+ " & " +:+ "P1" +:+ " & "
                      +:+ cell_t (shorten r) +:+ " & " +:+ rest)
  /\ (forall r, csv_Prompt r = Str "previous_user_template.txt" ->
                cell_p (shorten r) = "P2"
                /\ exists rest,
                    row_line (shorten r)
                    = cell_m (shorten r) +:+ " & " +:+ "P2" +:+ " & "
                      +:+ cell_t (shorten r) +:+ " & " +:+ rest)
  /\ (forall r, In r df -> isin (csv_Prompt r) prompt_mapping = true ->
                In (row_line (shorten r)) (data_lines df)
                /\ exists before after,
                    latex_of df
                    = before +:+ row_line (shorten r) +:+ after)
  /\ Forall (fun r => cell_p r = "P1" \/ cell_p r = "P2") (table_rows df)
  /\ length (data_lines df)
     = length (filter (fun r => isin (csv_Prompt r) prompt_mapping) df).
Proof.
  split; [apply latex_of_parts|].
  split.
  { unfold data_lines. rewrite table_rows_perm, map_map. reflexivity. }
  split; [apply table_rows_perm|].
  split; [apply isin_prompt_mapping|].
  split.
  { intros r H.
    assert (E : cell_p (shorten r) = "P1").
    { unfold cell_p, shorten. cbn [Prompt set_Prompt]. rewrite H.
      reflexivity. }
    split; [exact E|].
    destruct (row_line_opening (shorten r)) as [rest Hl].
    exists rest. rewrite Hl, E. reflexivity. }
  split.
  { intros r H.
    assert (E : cell_p (shorten r) = "P2").
    { unfold cell_p, shorten. cbn [Prompt set_Prompt]. rewrite H.
      reflexivity. }
    split; [exact E|].
    destruct (row_line_opening (shorten r)) as [rest Hl].
    exists rest. rewrite Hl, E. reflexivity. }
  split.
  { intros r Hin Hp.
    pose proof (shorten_in_table_rows df r Hin Hp) as Hr.
    split; [unfold data_lines; now apply in_map|].
    now apply line_in_document. }
  split.
  { eapply Permutation_Forall; [symmetry; apply table_rows_perm|].
    apply Forall_forall. intros r' Hin.
    apply list_elem_of_fmap in Hin as (r & -> & Hr).
    apply list_elem_of_filter in Hr as [Hr _].
    apply Is_true_true in Hr.
    destruct (cell_p_shorten r Hr) as [[_ H]|[_ H]]; unfold cell_p;
      rewrite H; auto. }
  unfold data_lines. rewrite length_map.
  rewrite (Permutation_length (table_rows_perm df)). apply length_map.
Qed.

Lemma prompt_filter_example :
  map (fun r => (cell_m r, cell_p r)) (table_rows unmapped_example)
  = [ ("my\_local\_model", "P1") ].
Proof. vm_compute. reflexivity. Qed.

(** The escaped text never begins with an underscore. *)
Lemma replace_underscore_head s c r :
  replace_underscore s = String c r -> Ascii.eqb c "_" = false.
Proof.
  destruct s as [|x s]; [discriminate|]. simpl.
  destruct (Ascii.eqb x "_") eqn:E; intros [= <- _]; [reflexivity|exact E].
Qed.

Lemma unescape_replace_underscore s :
  unescape_underscore (replace_underscore s) = s.
Proof.
  induction s as [|x s IH]; [reflexivity|].
  cbn [replace_underscore].
  destruct (Ascii.eqb x "_") eqn:E.
  - apply Ascii.eqb_eq in E. subst x.
    cbn [unescape_underscore]. simpl. now rewrite IH.
  - cbn [unescape_underscore].
    destruct (replace_underscore s) as [|c r] eqn:Er.
    + destruct s as [|y s]; [reflexivity|]. simpl in Er.
      destruct (Ascii.eqb y "_"); discriminate.
    + rewrite (replace_underscore_head s c r Er), andb_false_r.
      now rewrite IH.
Qed.

Lemma underscores_escaped_replace prev s :
  underscores_escaped prev (replace_underscore s) = true.
Proof.
  revert prev. induction s as [|x s IH]; intros prev; [reflexivity|].
  cbn [replace_underscore].
  destruct (Ascii.eqb x "_") eqn:E.
  - cbn [underscores_escaped]. simpl. apply IH.
  - cbn [underscores_escaped]. rewrite E. apply IH.
Qed.

Lemma MappedModel_unmapped r m :
  Model r = Str m -> model_name_mapping !! m = None ->
  MappedModel r = Str m.
Proof.
  intros Hm Hnone. unfold MappedModel. rewrite Hm.
  cbn [series_map]. rewrite Hnone. reflexivity.
Qed.

(** C9. A row of a recognised prompt whose model identifier the curated
    table does not list is rendered, and its label is that identifier with
    a backslash put before every underscore and nothing else changed:
    taking the backslashes before underscores away gives the identifier
    back. *)
Theorem unmapped_model_label (df : list CsvRow) (raw : CsvRow) (m : string) :
  In raw df ->
  isin (csv_Prompt raw) prompt_mapping = true ->
  Configuration raw = Str m ->
  model_name_mapping !! m = None ->
  In (shorten raw) (table_rows df)
  /\ In (row_line (shorten raw)) (data_lines df)
  /\ MappedModel (shorten raw) = Str m
  /\ row_cells (shorten raw) !! 0 = Some (replace_underscore m)
  /\ (exists rest,
         row_line (shorten raw) = replace_underscore m +:+ " & " +:+ rest)
  /\ underscores_escaped false (replace_underscore m) = true
  /\ unescape_underscore (replace_underscore m) = m.
Proof.
  intros Hin Hp Hc Hnone.
  assert (Hrow : In (shorten raw) (table_rows df)).
  { eapply Permutation_in; [symmetry; apply table_rows_perm|].
    apply list_elem_of_In, list_elem_of_fmap. exists raw. split; [reflexivity|].
    apply list_elem_of_filter. split; [now apply Is_true_true|].
    now apply list_elem_of_In. }
  assert (Hmm : MappedModel (shorten raw) = Str m).
  { apply MappedModel_unmapped; [exact Hc|exact Hnone]. }
  split; [exact Hrow|].
  split; [unfold data_lines; now apply in_map|].
  split; [exact Hmm|].
  split; [unfold row_cells, cell_m; rewrite Hmm; reflexivity|].
  split.
  { unfold row_line, cell_m. rewrite Hmm. eexists. reflexivity. }
  split; [apply underscores_escaped_replace|apply unescape_replace_underscore].
Qed.

Lemma unmapped_model_label_witness :
  In (mkCsvRow (Str "my_local_model") (Str "current_user_template.txt")
               (literal 2 1) no_columns) unmapped_example
  /\ isin (Str "current_user_template.txt") prompt_mapping = true
  /\ model_name_mapping !! "my_local_model" = None
  /\ row_cells (shorten (mkCsvRow (Str "my_local_model")
                                  (Str "current_user_template.txt")
                                  (literal 2 1) no_columns)) !! 0
     = Some "my\_local\_model".
Proof.
  split; [left; reflexivity|].
  split; [vm_compute; reflexivity|]. split; [vm_compute; reflexivity|].
  apply (unmapped_model_label unmapped_example
           (mkCsvRow (Str "my_local_model") (Str "current_user_template.txt")
                     (literal 2 1) no_columns) "my_local_model");
    [left; reflexivity|vm_compute; reflexivity|reflexivity
    |vm_compute; reflexivity].
Defined.

Lemma metric_cells_values r :
  metric_cells r = map (format_f 2) (row_values r).
Proof.
  unfold metric_cells, row_values, cells_of, cell_total.
  rewrite !map_app, !map_map. reflexivity.
Qed.

Lemma nan_to_zero_present x : isnan x = false -> nan_to_zero x = x.
Proof. unfold nan_to_zero. now intros ->. Qed.

(** With its five averages present, the total of a row is their sum,
    added from left to right to zero. *)
Lemma Sum_all_present r :
  Forall (fun c => isnan (num r c) = false) avg_cols ->
  Sum r = add (add (add (add (add (S754_zero false)
                                  (num r "Answer Relevancy (Avg)"))
                             (num r "Correctness (Avg)"))
                        (num r "Faithfulness (Avg)"))
                   (num r "Hallucination (Avg)"))
              (num r "Specific Information Accuracy (Avg)").
Proof.
  intros H. unfold Sum, nansum.
  change avg_cols with
    [ "Answer Relevancy (Avg)"; "Correctness (Avg)"; "Faithfulness (Avg)";
      "Hallucination (Avg)"; "Specific Information Accuracy (Avg)" ] in *.
  repeat (apply Forall_cons in H as [? H]).
  cbn [map]. rewrite !nan_to_zero_present by assumption. reflexivity.
Qed.

(** The line of a row, cell by cell up to the total. *)
Lemma row_line_total (r : Row) :
  row_line r
  = cell_m r +:+ " & " +:+ cell_p r +:+ " & " +:+ cell_t r +:+ " & "
    +:+ format_f 2 (num r "Answer Relevancy (Avg)") +:+ " & "
    +:+ format_f 2 (num r "Correctness (Avg)") +:+ " & "
    +:+ format_f 2 (num r "Faithfulness (Avg)") +:+ " & "
    +:+ format_f 2 (num r "Hallucination (Avg)") +:+ " & "
    +:+ format_f 2 (num r "Specific Information Accuracy (Avg)") +:+ " & "
    +:+ format_f 2 (Sum r) +:+ " & "
    +:+ join " & " (cells_of r gpt4o_cols) +:+ " & "
    +:+ join " & " (cells_of r claude_cols) +:+ " \\" +:+ nl.
Proof.
  unfold row_line, cell_total.
  change (cells_of r avg_cols) with
    [ format_f 2 (num r "Answer Relevancy (Avg)");
      format_f 2 (num r "Correctness (Avg)");
      format_f 2 (num r "Faithfulness (Avg)");
      format_f 2 (num r "Hallucination (Avg)");
      format_f 2 (num r "Specific Information Accuracy (Avg)") ].
  cbn [join]. rewrite !append_assoc. reflexivity.
Qed.

(** C6. The line of every row of the document reads label, prompt,
    temperature, the five averages with two decimals, and then the total:
    the sum of the five average columns of the row (a missing average
    counting as zero), printed with two decimals.  The averages 0.80,
    0.70, 0.60, 0.90, 0.50 give the line whose total is 3.50. *)
Theorem total_is_sum_of_averages (df : list CsvRow) (r : Row) :
  In r (table_rows df) ->
  In (row_line r) (data_lines df)
  /\ (exists before after, latex_of df = before +:+ row_line r +:+ after)
  /\ row_line r
     = cell_m r +:+ " & " +:+ cell_p r +:+ " & " +:+ cell_t r +:+ " & "
       +:+ format_f 2 (num r "Answer Relevancy (Avg)") +:+ " & "
       +:+ format_f 2 (num r "Correctness (Avg)") +:+ " & "
       +:+ format_f 2 (num r "Faithfulness (Avg)") +:+ " & "
       +:+ format_f 2 (num r "Hallucination (Avg)") +:+ " & "
       +:+ format_f 2 (num r "Specific Information Accuracy (Avg)")
       +:+ " & "
       +:+ format_f 2 (Sum r) +:+ " & "
       +:+ join " & " (cells_of r gpt4o_cols) +:+ " & "
       +:+ join " & " (cells_of r claude_cols) +:+ " \\" +:+ nl
  /\ Sum r = nansum [ num r "Answer Relevancy (Avg)";
                      num r "Correctness (Avg)";
                      num r "Faithfulness (Avg)";
                      num r "Hallucination (Avg)";
                      num r "Specific Information Accuracy (Avg)" ]
  /\ (Forall (fun c => isnan (num r c) = false) avg_cols ->
      Sum r = add (add (add (add (add (S754_zero false)
                                      (num r "Answer Relevancy (Avg)"))
                                 (num r "Correctness (Avg)"))
                            (num r "Faithfulness (Avg)"))
                       (num r "Hallucination (Avg)"))
                  (num r "Specific Information Accuracy (Avg)"))
  /\ data_lines total_example
     = [ "O1 & P1 & - & 0.80 & 0.70 & 0.60 & 0.90 & 0.50 & 3.50 & 0.00 & 0.00 & 0.00 & 0.00 & 0.00 & 0.00 & 0.00 & 0.00 & 0.00 & 0.00 \\"
         +:+ nl ].
Proof.
  intros Hin.
  split; [unfold data_lines; now apply in_map|].
  split; [now apply line_in_document|].
  split; [apply row_line_total|].
  split; [reflexivity|].
  split; [apply Sum_all_present|]. vm_compute. reflexivity.
Qed.

Lemma total_is_sum_of_averages_witness :
  In (mkRow (Str "GENAI_SHARED_AZURE_OPENAI_O1") (Str "P1") S754_nan
            averages_example)
     (table_rows total_example)
  /\ In (row_line (mkRow (Str "GENAI_SHARED_AZURE_OPENAI_O1") (Str "P1")
                         S754_nan averages_example))
        (data_lines total_example)
  /\ format_f 2 (Sum (mkRow (Str "GENAI_SHARED_AZURE_OPENAI_O1") (Str "P1")
                            S754_nan averages_example))
     = "3.50".
Proof.
  split; [left; reflexivity|].
  split; [|vm_compute; reflexivity].
  apply (total_is_sum_of_averages total_example
           (mkRow (Str "GENAI_SHARED_AZURE_OPENAI_O1") (Str "P1") S754_nan
                  averages_example)).
  left. reflexivity.
Defined.

(** C7, as the code has it.  In every row, a metric or total cell whose
    value is finite has exactly two decimals, and the temperature cell is
    the dash when the value is missing and has exactly one decimal when
    the value is finite. *)
Theorem finite_cells_fixed_precision (df : list CsvRow) (r : Row) :
  In r (table_rows df) ->
  metric_cells r = map (format_f 2) (row_values r)
  /\ Forall (fun v => is_finite v = true ->
                      is_fixed_point 2 (format_f 2 v) = true)
            (row_values r)
  /\ (isnan (Temperature r) = true -> cell_t r = "-")
  /\ (is_finite (Temperature r) = true ->
      is_fixed_point 1 (cell_t r) = true).
Proof.
  intros _. split; [apply metric_cells_values|].
  split.
  { apply Forall_forall. intros v _ Hv. now apply format_f_fixed_point. }
  split.
  { intros H. unfold cell_t. rewrite H. reflexivity. }
  intros H. unfold cell_t.
  destruct (Temperature r); try discriminate; cbn [isnan negb];
    now apply format_f_fixed_point.
Qed.

Lemma finite_cells_fixed_precision_witness :
  In (mkRow (Str "A") (Str "P1") (literal 7 1)
            (columns [ ("Correctness (Avg)", S754_nan) ]))
     (table_rows missing_metric_example)
  /\ is_fixed_point 1
       (cell_t (mkRow (Str "A") (Str "P1") (literal 7 1)
                      (columns [ ("Correctness (Avg)", S754_nan) ])))
     = true.
Proof.
  split; [left; reflexivity|].
  apply (finite_cells_fixed_precision missing_metric_example
           (mkRow (Str "A") (Str "P1") (literal 7 1)
                  (columns [ ("Correctness (Avg)", S754_nan) ])));
    [left; reflexivity|reflexivity].
Defined.

(** C7, as the specification words it, fails: in the row whose Correctness
    average is missing, that cell is the word nan, which has no
    decimals. *)
Lemma missing_metric_renders_nan :
  exists r,
    In r (table_rows missing_metric_example)
    /\ metric_cells r !! 1 = Some "nan"
    /\ is_fixed_point 2 "nan" = false
    /\ ~ renders_fixed_precision r.
Proof.
  exists (mkRow (Str "A") (Str "P1") (literal 7 1)
                (columns [ ("Correctness (Avg)", S754_nan) ])).
  split; [left; reflexivity|]. split; [vm_compute; reflexivity|].
  split; [reflexivity|].
  intros [H _].
  apply Forall_cons in H as [_ H]. apply Forall_cons in H as [H _].
  vm_compute in H. discriminate H.
Qed.

Lemma table_head_newline :
  exists rest, table_head = String (ascii_of_nat 10) rest.
Proof. eexists. vm_compute. reflexivity. Qed.

(** The document of a frame opens with a newline. *)
Lemma latex_of_head df :
  exists rest, latex_of df = String (ascii_of_nat 10) rest.
Proof.
  rewrite latex_of_parts. destruct table_head_newline as [rest ->].
  rewrite append_cons. eexists. reflexivity.
Qed.

(** C4, as the code has it.  When the source cannot be read the call does
    not raise: it returns a message, [Error: The file at <path> was not
    found.] for a missing file and [An error occurred while reading the
    CSV file: <e>] for any other failure [e], and that text is the
    document of no frame. *)
Theorem unreadable_source_message (read_csv : string -> read_result)
        (csv_path : string) :
  is_read_ok (read_csv csv_path) = false ->
  exists msg,
    call_generate read_csv csv_path = Returns msg
    /\ ((read_csv csv_path = FileNotFoundError
         /\ msg = "Error: The file at " +:+ csv_path +:+ " was not found.")
        \/ (exists e, read_csv csv_path = ReadException e
            /\ msg = "An error occurred while reading the CSV file: " +:+ e))
    /\ (forall df, msg <> latex_of df)
    /\ (forall e, call_generate read_csv csv_path <> Raises e).
Proof.
  intros Hread. unfold call_generate, generate_full_latex_table.
  destruct (read_csv csv_path) as [df| |e]; [discriminate| |].
  - eexists. split; [reflexivity|]. split; [left; split; reflexivity|].
    split; [|discriminate].
    intros df H. destruct (latex_of_head df) as [rest Hd].
    rewrite Hd in H. discriminate H.
  - eexists. split; [reflexivity|].
    split; [right; exists e; split; reflexivity|].
    split; [|discriminate].
    intros df H. destruct (latex_of_head df) as [rest Hd].
    rewrite Hd in H. discriminate H.
Qed.

Lemma unreadable_source_message_witness :
  is_read_ok (no_file "macro_evaluation_results.csv") = false
  /\ exists msg,
      call_generate no_file "macro_evaluation_results.csv" = Returns msg.
Proof.
  split; [reflexivity|].
  destruct (unreadable_source_message no_file "macro_evaluation_results.csv")
    as (msg & H & _); [reflexivity|].
  exists msg. exact H.
Defined.

(** C4, as the specification words it, fails: with the file missing the
    call returns a text and raises nothing. *)
Lemma unreadable_source_returns_text :
  is_read_ok (no_file "macro_evaluation_results.csv") = false
  /\ call_generate no_file "macro_evaluation_results.csv"
     = Returns "Error: The file at macro_evaluation_results.csv was not found."
  /\ ~ fails_when_unreadable no_file "macro_evaluation_results.csv".
Proof.
  split; [reflexivity|]. split; [reflexivity|].
  intros H. specialize (H eq_refl). discriminate H.
Qed.

End TableFacts.

(* ===================================================================== *)
(** * Further properties of the evaluation suite factory *)
(* ===================================================================== *)

Module DeepevalMetricsMore.
Import PyFloat DeepevalMetrics DeepevalMetricsFacts.

Section Suite.
Context {LLM : Type}.
Implicit Types (model : option (model_ref LLM)) (include_reason : bool).

Lemma threshold_for_in_range thresholds key dflt :
  policy_in_range thresholds -> in_unit_interval dflt = true ->
  in_unit_interval (threshold_for thresholds key dflt) = true.
Proof.
  destruct thresholds as [s|d]; simpl; intros H Hd; [exact H|].
  destruct (d !! key) as [v|] eqn:E; simpl; [|exact Hd].
  exact (H key v E).
Qed.

(** X1. A policy whose values all lie in [0,1] gives every check of the suite
    a threshold in [0,1]: the fallbacks 0.9 and 0.8 lie there too. *)
Theorem get_metrics_in_range model thresholds include_reason :
  policy_in_range thresholds ->
  Forall (fun c => in_unit_interval (metric_threshold c) = true)
         (get_metrics model thresholds include_reason).
Proof.
  intros H. unfold get_metrics.
  repeat (apply Forall_cons; split);
    try (cbn [metric_threshold]; apply threshold_for_in_range;
         [exact H|reflexivity]).
  apply Forall_nil; exact I.
Qed.

(** X2. The suite depends on a mapping through the five names only: two
    mappings that agree on them, whatever else they hold, build the same
    suite. *)
Theorem get_metrics_only_five_keys model include_reason
        (d1 d2 : gmap string float) :
  Forall (fun name => d1 !! name = d2 !! name) check_names ->
  get_metrics model (ThDict d1) include_reason
  = get_metrics model (ThDict d2) include_reason.
Proof.
  intros H. unfold check_names in H.
  repeat (apply Forall_cons in H as [? H]).
  unfold get_metrics, threshold_for.
  repeat match goal with E : _ !! _ = _ !! _ |- _ => rewrite E; clear E end.
  reflexivity.
Qed.

(** X3. When the call leaves [thresholds] out, every check has the threshold
    0.7 of the signature: the fallbacks 0.9 and 0.8 apply to mappings
    only. *)
Theorem get_metrics_default_thresholds model (include_reason : option bool) :
  map metric_threshold (get_metrics_kw model None include_reason)
  = [ literal 7 1; literal 7 1; literal 7 1; literal 7 1; literal 7 1 ]
  /\ Forall (fun c => metric_threshold c <> documented_fallback (metric_name c))
            (get_metrics_kw model None include_reason).
Proof.
  split; [vm_compute; reflexivity|].
  unfold get_metrics_kw, get_metrics.
  repeat (apply Forall_cons; split); try (vm_compute; discriminate).
  apply Forall_nil; exact I.
Qed.

End Suite.

Lemma get_metrics_in_range_witness :
  policy_in_range (ThDict {[ "Hallucination" := literal 2 1 ]})
  /\ Forall (fun c => in_unit_interval (metric_threshold c) = true)
            (get_metrics (DeepEvalBaseLLM := no_llm) None
               (ThDict {[ "Hallucination" := literal 2 1 ]}) false).
Proof.
  assert (H : policy_in_range (ThDict {[ "Hallucination" := literal 2 1 ]})).
  { apply map_Forall_singleton. reflexivity. }
  split; [exact H|].
  apply (get_metrics_in_range (LLM := no_llm) None
           (ThDict {[ "Hallucination" := literal 2 1 ]}) false H).
Defined.

Lemma get_metrics_only_five_keys_witness :
  Forall (fun name =>
            ({[ "Hallucination" := literal 2 1 ]} : gmap string float) !! name
            = ({[ "Hallucination" := literal 2 1;
                  "Toxicity" := literal 5 1 ]} : gmap string float) !! name)
         check_names
  /\ get_metrics (DeepEvalBaseLLM := no_llm) None
       (ThDict {[ "Hallucination" := literal 2 1 ]}) false
     = get_metrics None
         (ThDict {[ "Hallucination" := literal 2 1;
                    "Toxicity" := literal 5 1 ]}) false.
Proof.
  assert (H : Forall (fun name =>
            ({[ "Hallucination" := literal 2 1 ]} : gmap string float) !! name
            = ({[ "Hallucination" := literal 2 1;
                  "Toxicity" := literal 5 1 ]} : gmap string float) !! name)
         check_names).
  { repeat (apply Forall_cons; split); try (vm_compute; reflexivity).
    apply Forall_nil; exact I. }
  split; [exact H|].
  apply (get_metrics_only_five_keys (LLM := no_llm) None false _ _ H).
Defined.

End DeepevalMetricsMore.

(* ===================================================================== *)
(** * Further properties of the sort *)
(* ===================================================================== *)

Module SortMore.
Import PyFloat LatexTable OrderFacts SortFacts.

Lemma same_key_refl r : same_key r r = true.
Proof. unfold same_key. now rewrite (cmp_refl row_cmp). Qed.

Lemma same_key_sym a b : same_key a b = same_key b a.
Proof.
  unfold same_key. rewrite (cmp_opp (cmp := row_cmp) b a).
  destruct (row_cmp b a); reflexivity.
Qed.

Lemma row_le_antisym a b : row_le a b -> row_le b a -> same_key a b = true.
Proof.
  unfold row_le, row_leb, same_key. rewrite (cmp_opp (cmp := row_cmp) a b).
  destruct (row_cmp a b); simpl; try discriminate; reflexivity.
Qed.

Lemma in_filter_same_key (k x : Row) (l : list Row) :
  x ∈ filter (same_key k) l -> x ∈ l.
Proof. intros H. apply list_elem_of_filter in H as [_ H]. exact H. Qed.

(** Two sorted frames with the same rows of every tie class, in the same
    order, are one frame. *)
Lemma sorted_stable_unique (l1 l2 : list Row) :
  StronglySorted row_le l1 -> StronglySorted row_le l2 ->
  (forall k, filter (same_key k) l1 = filter (same_key k) l2) ->
  l1 = l2.
Proof.
  revert l2. induction l1 as [|x t1 IH]; intros l2 H1 H2 Hf.
  - destruct l2 as [|y t2]; [reflexivity|].
    specialize (Hf y). rewrite filter_cons_True in Hf
      by (apply Is_true_true, same_key_refl).
    discriminate Hf.
  - destruct l2 as [|y t2].
    { specialize (Hf x). rewrite filter_cons_True in Hf
        by (apply Is_true_true, same_key_refl).
      discriminate Hf. }
    apply StronglySorted_inv in H1 as [H1 Hx].
    apply StronglySorted_inv in H2 as [H2 Hy].
    assert (Hxy : x = y).
    { pose proof (Hf x) as Hfx.
      rewrite filter_cons_True in Hfx by (apply Is_true_true, same_key_refl).
      destruct (same_key x y) eqn:Exy.
      - rewrite filter_cons_True in Hfx by (now apply Is_true_true).
        now injection Hfx.
      - exfalso.
        rewrite filter_cons_False in Hfx
          by (intros ?%Is_true_true; congruence).
        assert (Hin : x ∈ t2).
        { apply (in_filter_same_key x). rewrite <- Hfx. left. }
        pose proof (Hf y) as Hfy.
        rewrite (filter_cons_True _ y) in Hfy
          by (apply Is_true_true, same_key_refl).
        rewrite filter_cons_False in Hfy
          by (rewrite same_key_sym; intros ?%Is_true_true; congruence).
        assert (Hin' : y ∈ t1).
        { apply (in_filter_same_key y). rewrite Hfy. left. }
        rewrite Forall_forall in Hx, Hy.
        pose proof (row_le_antisym x y (Hx y Hin') (Hy x Hin)). congruence. }
    subst y. f_equal. apply IH; try assumption.
    intros k. specialize (Hf k). rewrite !filter_cons in Hf.
    destruct (decide (same_key k x)); [now injection Hf|exact Hf].
Qed.

(** X4. The order of the report is the only one that is ascending in the
    three keys and keeps the rows of equal keys in the order of the
    frame. *)
Theorem sort_values_unique (l l' : list Row) :
  StronglySorted row_le l' ->
  (forall k, filter (same_key k) l' = filter (same_key k) l) ->
  l' = sort_values l.
Proof.
  intros Hs Hf. apply sorted_stable_unique.
  - exact Hs.
  - apply sort_values_sorted.
  - intros k. rewrite sort_values_stable. apply Hf.
Qed.

(** X5. A frame that is already in order is left as it is, so that sorting
    twice is sorting once. *)
Theorem sort_values_sorted_fixed (l : list Row) :
  StronglySorted row_le l ->
  sort_values l = l /\ sort_values (sort_values l) = sort_values l.
Proof.
  intros Hs.
  assert (fixed : forall l0, StronglySorted row_le l0 -> sort_values l0 = l0).
  { intros l0 H0. apply sorted_stable_unique.
    - apply sort_values_sorted.
    - exact H0.
    - intros k. apply sort_values_stable. }
  split; [now apply fixed|apply fixed, sort_values_sorted].
Qed.

Lemma sort_values_sorted_fixed_witness :
  StronglySorted row_le
    [ mkRow (Str "A") (Str "P1") (literal 7 1) no_columns;
      mkRow (Str "B") (Str "P1") S754_nan no_columns ]
  /\ sort_values [ mkRow (Str "A") (Str "P1") (literal 7 1) no_columns;
                   mkRow (Str "B") (Str "P1") S754_nan no_columns ]
     = [ mkRow (Str "A") (Str "P1") (literal 7 1) no_columns;
         mkRow (Str "B") (Str "P1") S754_nan no_columns ].
Proof.
  assert (Hs : StronglySorted row_le
    [ mkRow (Str "A") (Str "P1") (literal 7 1) no_columns;
      mkRow (Str "B") (Str "P1") S754_nan no_columns ]).
  { repeat constructor. }
  split; [exact Hs|].
  apply (sort_values_sorted_fixed _ Hs).
Defined.

Lemma sort_values_unique_witness :
  StronglySorted row_le
    [ mkRow (Str "A") (Str "P1") (literal 7 1) no_columns;
      mkRow (Str "A") (Str "P1") S754_nan no_columns ]
  /\ [ mkRow (Str "A") (Str "P1") (literal 7 1) no_columns;
       mkRow (Str "A") (Str "P1") S754_nan no_columns ]
     = sort_values [ mkRow (Str "A") (Str "P1") S754_nan no_columns;
                     mkRow (Str "A") (Str "P1") (literal 7 1) no_columns ].
Proof.
  assert (Hs : StronglySorted row_le
    [ mkRow (Str "A") (Str "P1") (literal 7 1) no_columns;
      mkRow (Str "A") (Str "P1") S754_nan no_columns ]).
  { repeat constructor. }
  split; [exact Hs|].
  apply (sort_values_unique
           [ mkRow (Str "A") (Str "P1") S754_nan no_columns;
             mkRow (Str "A") (Str "P1") (literal 7 1) no_columns ]
           _ Hs).
  intros k. rewrite !filter_cons, filter_nil.
  destruct (decide (same_key k (mkRow (Str "A") (Str "P1") (literal 7 1) no_columns)));
  destruct (decide (same_key k (mkRow (Str "A") (Str "P1") S754_nan no_columns)));
    try reflexivity.
  exfalso.
  assert (E : row_cmp (mkRow (Str "A") (Str "P1") S754_nan no_columns)
                      (mkRow (Str "A") (Str "P1") (literal 7 1) no_columns) = Eq).
  { apply (same_key_both k); now apply Is_true_true. }
  vm_compute in E. discriminate E.
Defined.

End SortMore.

(* ===================================================================== *)
(** * Further properties of the report generator and of the script *)
(* ===================================================================== *)

Module TableMore.
Import PyFloat LatexTable OrderFacts SortFacts PyFloatFacts TableFacts.

(** ** A frame with no recognised prompt *)

(** X6. When no row of the frame has a recognised prompt, and so for the
    empty frame, the document is the head followed at once by the foot. *)
Theorem document_without_rows (df : list CsvRow) :
  Forall (fun r => isin (csv_Prompt r) prompt_mapping = false) df ->
  data_lines df = [] /\ latex_of df = table_head +:+ table_foot.
Proof.
  intros H.
  assert (E : filter (fun r => isin (csv_Prompt r) prompt_mapping) df = []).
  { induction H as [|r df Hr _ IH]; [reflexivity|].
    rewrite filter_cons_False; [exact IH|].
    intros ?%Is_true_true. congruence. }
  assert (Et : table_rows df = []).
  { apply Permutation_nil. symmetry.
    rewrite table_rows_perm, E. reflexivity. }
  unfold latex_of, data_lines. rewrite Et. split; reflexivity.
Qed.

Lemma document_without_rows_witness :
  Forall (fun r => isin (csv_Prompt r) prompt_mapping = false)
         unrecognised_example
  /\ latex_of unrecognised_example = table_head +:+ table_foot.
Proof.
  assert (H : Forall (fun r => isin (csv_Prompt r) prompt_mapping = false)
                     unrecognised_example).
  { repeat constructor. }
  split; [exact H|].
  apply (document_without_rows unrecognised_example H).
Defined.

(** ** The cells of a line *)

(** X7. Every line of a row is its nineteen cells joined by [" & "] and
    closed by a double backslash and a newline, and nineteen is what the
    head declares: its column specification has nineteen columns, and
    both of its [\multicolumn] lines span [3+5+1+5+5] of them. *)
Theorem row_line_cells (r : Row) :
  row_line r = join " & " (row_cells r) +:+ " \\" +:+ nl
  /\ length (row_cells r) = 3 + 5 + 1 + 5 + 5
  /\ contains ("\begin{longtable}{|l|c|c|ccccc|c|ccccc|ccccc|}" +:+ nl)
              table_head = true
  /\ count_columns "|l|c|c|ccccc|c|ccccc|ccccc|" = length (row_cells r)
  /\ contains ("\multicolumn{" +:+ str_int (length (row_cells r))
               +:+ "}{c}{\tablename\ \thetable{} -- continued from previous page} \\"
               +:+ nl)
              table_head = true
  /\ contains ("\multicolumn{" +:+ str_int (length (row_cells r))
               +:+ "}{r}{Continued on next page} \\" +:+ nl)
              table_head = true.
Proof.
  split; [apply row_line_join|].
  split; [reflexivity|].
  change (length (row_cells r)) with 19.
  repeat split; vm_compute; reflexivity.
Qed.

(** ** Labels *)

Lemma curated_names_plain m v :
  model_name_mapping !! m = Some v -> replace_underscore v = v.
Proof.
  unfold model_name_mapping. intros H.
  apply elem_of_list_to_map_2 in H.
  repeat (apply elem_of_cons in H as [H|H];
          [injection H as -> ->; reflexivity|]).
  inversion H.
Qed.

(** X8. A row whose model identifier the curated table lists is labelled with
    the curated name, letter for letter: no curated name holds an
    underscore, so the escaping leaves it alone. *)
Theorem mapped_model_label (r : Row) (m v : string) :
  Model r = Str m ->
  model_name_mapping !! m = Some v ->
  MappedModel r = Str v /\ cell_m r = v.
Proof.
  intros Hm Hv.
  assert (E : MappedModel r = Str v).
  { unfold MappedModel. rewrite Hm. cbn [series_map]. rewrite Hv. reflexivity. }
  split; [exact E|].
  unfold cell_m. rewrite E. cbn [str_obj]. now apply (curated_names_plain m).
Qed.

Lemma mapped_model_label_witness :
  model_name_mapping !! "GENAI_SHARED_AZURE_OPENAI_GPT_4_OMNI_2024_20_11"
  = Some "GPT-4 Omni (2024-11-20)"
  /\ cell_m (mkRow (Str "GENAI_SHARED_AZURE_OPENAI_GPT_4_OMNI_2024_20_11")
                   (Str "P1") S754_nan no_columns)
     = "GPT-4 Omni (2024-11-20)".
Proof.
  split; [vm_compute; reflexivity|].
  apply (mapped_model_label
           (mkRow (Str "GENAI_SHARED_AZURE_OPENAI_GPT_4_OMNI_2024_20_11")
                  (Str "P1") S754_nan no_columns)
           "GENAI_SHARED_AZURE_OPENAI_GPT_4_OMNI_2024_20_11"
           "GPT-4 Omni (2024-11-20)");
    [reflexivity|vm_compute; reflexivity].
Defined.

Lemma MappedModel_missing r : Model r = NaN -> MappedModel r = NaN.
Proof. intros H. unfold MappedModel. rewrite H. reflexivity. Qed.

Lemma MappedModel_present r m :
  Model r = Str m -> exists v, MappedModel r = Str v.
Proof.
  intros H. unfold MappedModel. rewrite H. cbn [series_map].
  destruct (model_name_mapping !! m) as [v|]; eexists; reflexivity.
Qed.

(** X9. A row whose Configuration cell is empty is not an error: its label is
    the word nan, and it comes after every row that has a model. *)
Theorem missing_model_last (df : list CsvRow) (i j : nat) (a b : Row)
        (m : string) :
  table_rows df !! i = Some a ->
  table_rows df !! j = Some b ->
  Model a = NaN ->
  Model b = Str m ->
  cell_m a = "nan" /\ j < i.
Proof.
  intros Hi Hj Ha Hb.
  pose proof (MappedModel_missing a Ha) as Ea.
  destruct (MappedModel_present b m Hb) as [v Eb].
  split; [unfold cell_m; rewrite Ea; reflexivity|].
  destruct (Nat.lt_trichotomy i j) as [Hlt|[->|Hgt]];
    [exfalso|exfalso|exact Hgt].
  - pose proof (strongly_sorted_lookup row_le _ i j a b
                  (sort_values_sorted _) Hi Hj Hlt) as Hle.
    unfold row_le, row_leb, row_cmp in Hle.
    rewrite Ea, Eb in Hle. discriminate Hle.
  - rewrite Hi in Hj. injection Hj as ->. congruence.
Qed.

Lemma missing_model_last_witness :
  table_rows missing_model_example !! 1
  = Some (mkRow NaN (Str "P1") (literal 2 1) no_columns)
  /\ table_rows missing_model_example !! 0
     = Some (mkRow (Str "zeta") (Str "P2") (literal 2 1) no_columns)
  /\ cell_m (mkRow NaN (Str "P1") (literal 2 1) no_columns) = "nan"
  /\ 0 < 1.
Proof.
  split; [vm_compute; reflexivity|]. split; [vm_compute; reflexivity|].
  apply (missing_model_last missing_model_example 1 0
           (mkRow NaN (Str "P1") (literal 2 1) no_columns)
           (mkRow (Str "zeta") (Str "P2") (literal 2 1) no_columns) "zeta");
    first [ reflexivity | vm_compute; reflexivity ].
Defined.

(** ** The total *)

Lemma shr_1_nonneg mrs : (0 <= shr_m mrs)%Z -> (0 <= shr_m (shr_1 mrs))%Z.
Proof.
  destruct mrs as [m r s]. simpl.
  destruct m as [|[p|p|]|[p|p|]]; simpl; lia.
Qed.

Lemma iter_pos_nonneg p mrs :
  (0 <= shr_m mrs)%Z -> (0 <= shr_m (SpecFloat.iter_pos shr_1 p mrs))%Z.
Proof.
  revert mrs. induction p as [p IH|p IH|]; intros mrs H; simpl.
  - apply IH, IH, shr_1_nonneg, H.
  - apply IH, IH, H.
  - apply shr_1_nonneg, H.
Qed.

Lemma shr_fexp_nonneg m e l :
  (0 <= m)%Z -> (0 <= shr_m (fst (shr_fexp prec emax m e l)))%Z.
Proof.
  intros H. unfold shr_fexp, shr.
  assert (H0 : (0 <= shr_m (shr_record_of_loc m l))%Z)
    by (destruct l as [|[| |]]; exact H).
  destruct (fexp prec emax (Zdigits2 m + e) - e)%Z; simpl;
    [exact H0|now apply iter_pos_nonneg|exact H0].
Qed.

Lemma round_nearest_even_nonneg m l :
  (0 <= m)%Z -> (0 <= round_nearest_even m l)%Z.
Proof.
  intros H. destruct l as [|[| |]]; simpl; try lia.
  destruct (Z.even m); lia.
Qed.

Lemma binary_round_aux_not_nan s m e l :
  (0 <= m)%Z -> isnan (binary_round_aux prec emax s m e l) = false.
Proof.
  intros H. unfold binary_round_aux.
  pose proof (shr_fexp_nonneg m e l H) as H1.
  destruct (shr_fexp prec emax m e l) as [mrs' e'] eqn:E1. simpl in H1.
  pose proof (shr_fexp_nonneg _ e' loc_Exact
                (round_nearest_even_nonneg _ (loc_of_shr_record mrs') H1))
    as H2.
  destruct (shr_fexp prec emax
              (round_nearest_even (shr_m mrs') (loc_of_shr_record mrs'))
              e' loc_Exact) as [mrs'' e''] eqn:E2.
  simpl in H2.
  destruct (shr_m mrs'') as [|p|p]; [reflexivity| |lia].
  destruct (e'' <=? emax - prec)%Z; reflexivity.
Qed.

Lemma binary_normalize_not_nan m e sz :
  isnan (binary_normalize prec emax m e sz) = false.
Proof.
  unfold binary_normalize, binary_round.
  destruct m as [|p|p]; [reflexivity| |];
    match goal with
    | |- context [shl_align ?a ?b ?c] => destruct (shl_align a b c)
    end; now apply binary_round_aux_not_nan.
Qed.

(** Adding a number to what is not NaN gives what is not NaN. *)
Lemma add_not_nan x y :
  isnan x = false -> is_finite y = true -> isnan (add x y) = false.
Proof.
  intros Hx Hy. unfold add, SFadd.
  destruct x as [sx|sx| |sx mx ex]; try discriminate;
    destruct y as [sy|sy| |sy my ey]; try discriminate;
    try reflexivity.
  - destruct sx, sy; reflexivity.
  - apply binary_normalize_not_nan.
Qed.

Lemma fold_add_not_nan l acc :
  isnan acc = false -> Forall (fun y => is_finite y = true) l ->
  isnan (fold_left add l acc) = false.
Proof.
  intros Ha Hl. revert acc Ha.
  induction Hl as [|y l Hy _ IH]; intros acc Ha; [exact Ha|].
  simpl. apply IH. now apply add_not_nan.
Qed.

Lemma nan_to_zero_finite x :
  is_infinite x = false -> is_finite (nan_to_zero x) = true.
Proof. destruct x; try discriminate; reflexivity. Qed.

Lemma nansum_not_nan l :
  Forall (fun x => is_infinite x = false) l -> isnan (nansum l) = false.
Proof.
  intros H. unfold nansum.
  apply fold_add_not_nan; [reflexivity|].
  apply Forall_fmap. eapply Forall_impl; [exact H|].
  intros x Hx. now apply nan_to_zero_finite.
Qed.

Lemma format_f_not_nan d x : isnan x = false -> format_f (S d) x <> "nan".
Proof.
  intros Hx E.
  destruct x as [s|s| |s m e]; try discriminate Hx.
  - pose proof (format_f_fixed_point d (S754_zero s) eq_refl) as H.
    rewrite E in H. discriminate H.
  - destruct s; discriminate E.
  - pose proof (format_f_fixed_point d (S754_finite s m e) eq_refl) as H.
    rewrite E in H. discriminate H.
Qed.

(** X10. The total of a row none of whose averages is infinite is never
    missing: missing averages count as zero, so the total cell is not the
    word nan even where average cells are; with all five missing it is
    0.00. *)
Theorem total_never_missing (r : Row) :
  Forall (fun c => is_infinite (num r c) = false) avg_cols ->
  isnan (Sum r) = false
  /\ cell_total r <> "nan"
  /\ (Forall (fun c => isnan (num r c) = true) avg_cols ->
      cell_total r = "0.00").
Proof.
  intros H.
  assert (Hs : isnan (Sum r) = false).
  { unfold Sum. apply nansum_not_nan, Forall_fmap. exact H. }
  split; [exact Hs|]. split; [now apply format_f_not_nan|].
  intros Hn. unfold cell_total, Sum, nansum.
  change avg_cols with
    [ "Answer Relevancy (Avg)"; "Correctness (Avg)"; "Faithfulness (Avg)";
      "Hallucination (Avg)"; "Specific Information Accuracy (Avg)" ] in *.
  repeat (apply Forall_cons in Hn as [? Hn]).
  cbn [map]. unfold nan_to_zero.
  repeat match goal with E : isnan _ = true |- _ => rewrite E; clear E end.
  reflexivity.
Qed.

Lemma total_never_missing_witness :
  Forall (fun c => is_infinite (no_averages c) = false) avg_cols
  /\ cell_total (mkRow (Str "A") (Str "P1") S754_nan no_averages) <> "nan".
Proof.
  assert (H : Forall (fun c => is_infinite (no_averages c) = false) avg_cols).
  { repeat (apply Forall_cons; split); try (vm_compute; reflexivity).
    apply Forall_nil; exact I. }
  split; [exact H|].
  apply (total_never_missing
           (mkRow (Str "A") (Str "P1") S754_nan no_averages) H).
Defined.

(** ** The script *)

(** X11. When the CSV file cannot be read and the output file can be written,
    the script saves the error message under the name of the table and
    prints that the table was saved: a failed read is reported nowhere
    but in the saved text, which is the document of no frame. *)
Theorem main_saves_error_text (read_csv : string -> read_result)
        (write : string -> string -> write_result) :
  is_read_ok (read_csv "macro_evaluation_results.csv") = false ->
  write "latex_table.txt"
        (generate_full_latex_table read_csv "macro_evaluation_results.csv")
  = WriteOk ->
  exists msg,
    saved (main read_csv write) = Some ("latex_table.txt", msg)
    /\ (forall df, msg <> latex_of df)
    /\ (msg = "Error: The file at macro_evaluation_results.csv was not found."
        \/ exists e,
            msg = "An error occurred while reading the CSV file: " +:+ e)
    /\ printed (main read_csv write)
       = [ "LaTeX table successfully saved to latex_table.txt" ]
    /\ ended (main read_csv write) = Returns tt.
Proof.
  intros Hread Hwrite. unfold main. rewrite Hwrite. cbn [saved printed ended].
  eexists. split; [reflexivity|].
  unfold generate_full_latex_table.
  destruct (read_csv "macro_evaluation_results.csv") as [df| |e];
    [discriminate Hread| |].
  - split.
    { intros df H. destruct (latex_of_head df) as [rest Hd].
      rewrite Hd in H. discriminate H. }
    split; [left; reflexivity|]. split; reflexivity.
  - split.
    { intros df H. destruct (latex_of_head df) as [rest Hd].
      rewrite Hd in H. discriminate H. }
    split; [right; exists e; reflexivity|]. split; reflexivity.
Qed.

Lemma main_saves_error_text_witness :
  is_read_ok (no_file "macro_evaluation_results.csv") = false
  /\ always_writes "latex_table.txt"
       (generate_full_latex_table no_file "macro_evaluation_results.csv")
     = WriteOk
  /\ exists msg,
      saved (main no_file always_writes) = Some ("latex_table.txt", msg).
Proof.
  split; [reflexivity|]. split; [reflexivity|].
  destruct (main_saves_error_text no_file always_writes eq_refl eq_refl)
    as (msg & H & _).
  exists msg. exact H.
Defined.

End TableMore.
